(** * specialsoss.locate_trace: locating the SOSS signal traces

    A shallow embedding of [specialsoss/locate_trace.py] and the
    properties of its four functions: [trace_polynomial],
    [isolate_signal], [order_masks] and [wavelength_bins].

    Numbers.  The detector counts, fit parameters and wavelengths are
    IEEE doubles in the source.  They are modelled by exact rationals
    ([Q]): rounding is abstracted and NaN is excluded.  Integer values
    (column indices, pixel positions, an integer radius) are [Z].

    Failure.  A Python exception is [None] in the option monad for the
    pure functions and the outcome [Raised] for the stateful ones.

    External code.  [scipy.optimize.curve_fit] and the PSF models of
    [crossdispersion] are not part of this module: the fit is a section
    variable, the models are the two tags it is called with.  Plotting is
    left out. *)

From Stdlib Require Import String Ascii.
From Stdlib Require Import List ZArith QArith Qpower Bool Lia Lqa.
From Stdlib Require Import Permutation Sorted.
From Equations Require Import Equations.
Import ListNotations.

Open Scope Q_scope.

(** ** Python and numpy primitives *)

Module Py.

(** The option monad carries Python exceptions. *)
Definition bind {A B : Type} (m : option A) (k : A -> option B) : option B :=
  match m with
  | Some a => k a
  | None => None
  end.

(** [l[i]] for an [int] index: negative indices count from the end,
    anything outside [-len, len) raises [IndexError]. *)
Definition index (len : nat) (i : Z) : option nat :=
  let n := Z.of_nat len in
  if (0 <=? i)%Z && (i <? n)%Z then Some (Z.to_nat i)
  else if (- n <=? i)%Z && (i <? 0)%Z then Some (Z.to_nat (n + i))
  else None.

Definition getitem {A : Type} (l : list A) (i : Z) : option A :=
  match index (length l) i with
  | Some j => nth_error l j
  | None => None
  end.

(** [l[n] = v] for an index known to be in range *)
Fixpoint update {A : Type} (l : list A) (n : nat) (v : A) : list A :=
  match l, n with
  | [], _ => []
  | _ :: l', O => v :: l'
  | a :: l', S n' => a :: update l' n' v
  end.

(** Run [f] on every element, stopping at the first exception. *)
Fixpoint mapM {A B : Type} (f : A -> option B) (l : list A) : option (list B) :=
  match l with
  | [] => Some []
  | a :: l' =>
      match f a with
      | Some b =>
          match mapM f l' with
          | Some bs => Some (b :: bs)
          | None => None
          end
      | None => None
      end
  end.

(** [np.arange(n)] *)
Definition arange (n : nat) : list Z := map Z.of_nat (seq 0 n).

(** [np.ones_like(a)] for a one-dimensional array *)
Definition ones_like (a : list Q) : list Q := map (fun _ => 1) a.

(** [np.mean([a, b])] *)
Definition mean2 (a b : Q) : Q := (a + b) / 2.

(** [a < b] on floats *)
Definition ltb (a b : Q) : bool := negb (Qle_bool b a).

(** [np.polyval(p, x)] at one point: Horner's scheme, highest degree
    first, exactly as numpy runs it ([y = y * x + pv] for [pv] in [p]). *)
Definition polyval (p : list Q) (x : Q) : Q :=
  fold_left (fun y pv => y * x + pv) p 0.

(** [str.lower()] on the ASCII letters *)
Definition lower_ascii (c : ascii) : ascii :=
  let n := nat_of_ascii c in
  if (65 <=? n)%nat && (n <=? 90)%nat then ascii_of_nat (n + 32) else c.

Fixpoint lower (s : string) : string :=
  match s with
  | EmptyString => EmptyString
  | String c s' => String (lower_ascii c) (lower s')
  end.

(** [sorted(l, key=key)]: Python's sort is stable and compares keys
    with [<] only.  Insertion from the right realises the same order. *)
Section Sorted.
Context {A : Type} (key : A -> Q).

Fixpoint insert (a : A) (l : list A) : list A :=
  match l with
  | [] => [a]
  | b :: l' => if ltb (key b) (key a) then b :: insert a l' else a :: l
  end.

Definition sorted (l : list A) : list A := fold_right insert [] l.

(** Ascending order of the keys *)
Definition key_le (a b : A) : Prop := key a <= key b.
End Sorted.

End Py.

Notation "x <- m ;; k" := (Py.bind m (fun x => k))
  (at level 61, m at next level, right associativity).

(** ** The trace-center polynomial *)

(** The coefficient table of [trace_polynomial], one row per order. *)
Definition coeffs : list (list Q) :=
  [ [1.71164994e-11; -4.72119272e-08; 5.10276801e-05; -5.91535309e-02; 8.30680347e+01];
    [2.35792131e-13; 2.42999478e-08; 1.03641247e-05; -3.63088657e-02; 9.96766537e+01] ].

(** [trace_polynomial(order)]: the trace position at each of the 2048
    columns.  [coeffs[order-1]] raises for an order without a row. *)
Definition trace_polynomial (order : Z) : option (list Q) :=
  c <- Py.getitem coeffs (order - 1) ;;
  Some (map (fun x => Py.polyval c (inject_Z x)) (Py.arange 2048)).

(** The value of the polynomial with coefficients [p] (highest degree
    first) at [x], as the sum of its monomials. *)
Fixpoint poly_sum (p : list Q) (x : Q) : Q :=
  match p with
  | [] => 0
  | c :: p' => c * x ^ Z.of_nat (length p') + poly_sum p' x
  end.

(** The order-specific constants. *)
Definition order_coeffs (order : Z) : list Q :=
  if (order =? 1)%Z then
    [1.71164994e-11; -4.72119272e-08; 5.10276801e-05; -5.91535309e-02; 8.30680347e+01]
  else
    [2.35792131e-13; 2.42999478e-08; 1.03641247e-05; -3.63088657e-02; 9.96766537e+01].

(** ** Data model *)

(** A two-dimensional array: the rows, and [ncols], the length of each
    of them (the second dimension of the shape). *)
Record Frame : Type := mkFrame { ncols : nat; rows : list (list Q) }.

Definition nrows (a : Frame) : nat := length (rows a).

(** [frame[:, idx]] *)
Definition column (frame : Frame) (idx : Z) : option (list Q) :=
  j <- Py.index (ncols frame) idx ;;
  Some (map (fun r => nth j r 0) (rows frame)).

(** [np.zeros_like(frame)] *)
Definition zeros_like (frame : Frame) : Frame :=
  mkFrame (ncols frame) (map (map (fun _ => 0)) (rows frame)).

(** [a[:, n] = v]: [v] must have one entry per row and [n] must be a
    column of [a]. *)
Definition set_column (a : Frame) (n : nat) (v : list Q) : option Frame :=
  if (n <? ncols a)%nat && (length v =? nrows a)%nat then
    Some (mkFrame (ncols a)
            (map (fun rv => Py.update (fst rv) n (snd rv)) (combine (rows a) v)))
  else None.

(** [a[:k]] *)
Definition head_rows (k : nat) (a : Frame) : Frame :=
  mkFrame (ncols a) (firstn k (rows a)).

(** [a.swapaxes(-2, -1)] *)
Definition swapaxes (a : Frame) : Frame :=
  mkFrame (nrows a)
    (map (fun j => map (fun r => nth j r 0) (rows a)) (seq 0 (ncols a))).

(** The two PSF models of [crossdispersion] handed to the fit: [batman]
    has 6 parameters, [batmen] is two of them and has 12. *)
Inductive PsfModel : Type := batman | batmen.

Definition n_params (func : PsfModel) : nat :=
  match func with batman => 6%nat | batmen => 12%nat end.

Definition Bounds : Type := (list Q * list Q)%type.

(** The arguments of one [curve_fit(func, x, col, bounds=bounds, sigma=err)]. *)
Record FitCall : Type := mkFitCall {
  fit_func : PsfModel;
  fit_x : list Z;
  fit_y : list Q;
  fit_bounds : Bounds;
  fit_sigma : option (list Q)
}.

(** The values the [radius] argument is given: [None], a [bool], an
    [int] or a [float]. *)
Inductive PyVal : Type :=
| PyNone
| PyBool (b : bool)
| PyInt (z : Z)
| PyFloat (q : Q).

(** [isinstance(v, int)]: [bool] is a subclass of [int]. *)
Definition isinstance_int (v : PyVal) : bool :=
  match v with
  | PyBool _ | PyInt _ => true
  | PyNone | PyFloat _ => false
  end.

(** The number a value stands for in [float - v]; [None] raises. *)
Definition number (v : PyVal) : option Q :=
  match v with
  | PyNone => None
  | PyBool b => Some (inject_Z (Z.b2z b))
  | PyInt z => Some (inject_Z z)
  | PyFloat q => Some q
  end.

(** One row [(mu, sigma, A)] of the reduced parameter arrays. *)
Record Gaussian : Type := mkGaussian { g_mu : Q; g_sigma : Q; g_amp : Q }.

(** ** The column signal isolator *)

(** The model and the bounds [isolate_signal] settles on before the fit.
    The [bounds] argument is rebound on both branches, as in the source. *)
Definition fit_setup (idx : Z) (col : list Q) (bounds : option Bounds)
    (filt : string) : option (PsfModel * Bounds) :=
  (* Use the trace centers as the position of the center peak *)
  t1 <- trace_polynomial 1 ;;
  x1 <- Py.getitem t1 idx ;;
  t2 <- trace_polynomial 2 ;;
  x2 <- Py.getitem t2 idx ;;
  (* Set the column at which order 2 ends *)
  let order2end := if (length col =? 256)%nat then 1900%Z else 1050%Z in
  (* No order 2 if the trace is off the detector or the filter is F277W *)
  if (order2end <=? idx)%Z || String.eqb (Py.lower filt) "f277w" then
    let func := batman in
    let bounds := ([x1 - 3; 2; 100; 2; 300; 5], [x1 + 3; 4; 1e6; 8; 1e6; 10]) in
    Some (func, bounds)
  else
    let func := batmen in
    let bounds := ([x2 - 3; 2; 3; 2; 3; 5; x1 - 3; 2; 100; 2; 300; 5],
                   [x2 + 3; 4; 1e3; 8; 1e3; 10; x1 + 3; 4; 1e6; 8; 1e6; 10]) in
    Some (func, bounds).

(** The three Gaussians of the parameter block that starts at [off]:
    [p1 = params[off:off+3]], [p2] and [p3] the outer peaks on either side. *)
Definition components (params : list Q) (off : Z) : option (list Gaussian) :=
  c <- Py.getitem params off ;;
  s <- Py.getitem params (off + 1) ;;
  a <- Py.getitem params (off + 2) ;;
  so <- Py.getitem params (off + 3) ;;
  ao <- Py.getitem params (off + 4) ;;
  d <- Py.getitem params (off + 5) ;;
  let p1 := mkGaussian c s a in
  let p2 := mkGaussian (c - d) so ao in
  let p3 := mkGaussian (c + d) so ao in
  Some [p1; p2; p3].

(** [(llim, ulim)] from the sorted components. *)
Definition limits (sorted_params : list Gaussian) (sigma : Q) (radius : PyVal)
  : option (Q * Q) :=
  (* If radius is given use a set number of pixels as the radius *)
  if isinstance_int radius then
    mid <- Py.getitem sorted_params 1 ;;
    r <- number radius ;;
    Some (g_mu mid - r, g_mu mid + r)
  (* Otherwise, use the sigma value *)
  else
    lo <- Py.getitem sorted_params 0 ;;
    hi <- Py.getitem sorted_params (-1) ;;
    Some (g_mu lo - g_sigma lo * sigma, g_mu hi + g_sigma hi * sigma).

(** The limits of the order whose parameter block starts at [off]. *)
Definition order_limits (params : list Q) (off : Z) (sigma : Q) (radius : PyVal)
  : option (Q * Q) :=
  ps <- components params off ;;
  limits (Py.sorted g_mu ps) sigma radius.

(** [if len(params) == 12: params = np.concatenate([params[6:], params[:6]])] *)
Definition switch_orders (params : list Q) : list Q :=
  if (length params =? 12)%nat then skipn 6 params ++ firstn 6 params
  else params.

(** [ord[(x > llim) & (x < ulim)] = 0] *)
Definition unmask (ord : list Q) (x : list Z) (lim : Q * Q) : list Q :=
  map (fun mx =>
         if Py.ltb (fst lim) (inject_Z (snd mx)) && Py.ltb (inject_Z (snd mx)) (snd lim)
         then 0 else fst mx)
      (combine ord x).

Section Fit.

(** [scipy.optimize.curve_fit]: the fitted parameters, or a failure. *)
Variable curve_fit : FitCall -> option (list Q).

(** The call [isolate_signal] makes to [curve_fit]. *)
Definition fit_call (idx : Z) (frame : Frame) (bounds : option Bounds)
    (err : option (list Q)) (filt : string) : option FitCall :=
  col <- column frame idx ;;
  fb <- fit_setup idx col bounds filt ;;
  Some (mkFitCall (fst fb) (Py.arange (length col)) col (snd fb) err).

(** [isolate_signal(idx, frame, bounds, sigma, err, radius, filt)]:
    the pair of column masks [(ord1, ord2)]. *)
Definition isolate_signal (idx : Z) (frame : Frame) (bounds : option Bounds)
    (sigma : Q) (err : option (list Q)) (radius : PyVal) (filt : string)
  : option (list Q * list Q) :=
  (* Get the column of data *)
  col <- column frame idx ;;
  (* Make a mask for each order *)
  let ord1 := Py.ones_like col in
  let ord2 := Py.ones_like col in
  call <- fit_call idx frame bounds err filt ;;
  let func := fit_func call in
  (* Fit function to signal *)
  let x := Py.arange (length col) in
  params <- curve_fit call ;;
  (* Switch order 1 and 2 in list *)
  let params := switch_orders params in
  (* Order 1 *)
  lim1 <- order_limits params 0 sigma radius ;;
  let ord1 := unmask ord1 x lim1 in
  (* Order 2 *)
  match func with
  | batmen =>
      lim2 <- order_limits params 6 sigma radius ;;
      let ord2 := unmask ord2 x lim2 in
      Some (ord1, ord2)
  | batman =>
      (* Mask the whole column for order 2 *)
      Some (ord1, ord2)
  end.

End Fit.

(** ** The thread pool *)

(** [multiprocessing.dummy.Pool]: [map] cuts the iterable into chunks,
    the workers complete the chunks in some order, every completed chunk
    is stored under its own index and the result is read off by index.
    The completion order is the oracle [sched]: given the number of
    chunks it lists the chunk indices in the order they finish. *)
Module Pool.

Definition Schedule : Type := nat -> list nat.

Definition valid (sched : Schedule) : Prop :=
  forall k, Permutation (sched k) (seq 0 k).

(** [Pool(processes)] raises [ValueError] below one worker. *)
Definition make (n_jobs : Z) : option nat :=
  if (n_jobs <? 1)%Z then None else Some (Z.to_nat n_jobs).

(** [chunksize, extra = divmod(len(iterable), len(pool) * 4)], one more
    when [extra] is not zero. *)
Definition chunksize (workers len : nat) : nat :=
  let q := (len / (workers * 4))%nat in
  if (len mod (workers * 4) =? 0)%nat then q else S q.

(** [Pool._get_tasks]: slices of [size] items until a slice is empty. *)
Equations? chunks {A : Type} (size : nat) (it : list A) : list (list A)
  by wf (length it) lt :=
  chunks 0 _ := [];
  chunks (S _) [] := [];
  chunks (S k) (a :: l) := firstn (S k) (a :: l) :: chunks (S k) (skipn (S k) (a :: l)).
Proof.
  simpl. rewrite length_skipn. lia.
Qed.

(** The result stored under index [i], if that chunk has finished. *)
Fixpoint stored {B : Type} (i : nat) (done : list (nat * B)) : option B :=
  match done with
  | [] => None
  | (j, b) :: done' => if (i =? j)%nat then Some b else stored i done'
  end.

(** [pool.map(func, iterable)]: an exception in any call is raised by
    [map]. *)
Definition map {A B : Type} (workers : nat) (sched : Schedule)
    (func : A -> option B) (iterable : list A) : option (list B) :=
  let tasks := chunks (chunksize workers (length iterable)) iterable in
  let done :=
    List.map (fun i => (i, Py.mapM func (nth i tasks []))) (sched (length tasks)) in
  parts <- Py.mapM (fun i => r <- stored i done ;; r) (seq 0 (length tasks)) ;;
  Some (concat parts).

End Pool.

(** ** Files and console *)

(** A pixel coordinate [(row, column)] and the pixels of one wavelength bin *)
Definition Pixel : Type := (nat * nat)%type.
Definition Bin : Type := list Pixel.

(** What the functions read and write: the two cache files, the three
    throughput tables [files/GR700XD_{ord}.txt] (as [genfromtxt] unpacks
    them, wavelengths first), the FITS files by path, and the printed
    lines. *)
Record World : Type := mkWorld {
  order_masks_npy : option (Frame * Frame);
  wavelength_bins_npy : option (list (list Bin));
  throughput_txt : Z -> option (list (list Q));
  fits_data : string -> option (list Frame);
  stdout : list string
}.

Definition print (w : World) (line : string) : World :=
  mkWorld (order_masks_npy w) (wavelength_bins_npy w) (throughput_txt w)
          (fits_data w) (stdout w ++ [line]).

Definition save_order_masks (w : World) (m : Frame * Frame) : World :=
  mkWorld (Some m) (wavelength_bins_npy w) (throughput_txt w)
          (fits_data w) (stdout w).

Definition save_wavelength_bins (w : World) (b : list (list Bin)) : World :=
  mkWorld (order_masks_npy w) (Some b) (throughput_txt w)
          (fits_data w) (stdout w).

(** How a call ends: with an exception or with a value. *)
Inductive Outcome (A : Type) : Type :=
| Raised
| Returned (v : A).
Arguments Raised {A}.
Arguments Returned {A} v.

(** Keyword arguments [order_masks] forwards to [isolate_signal]; a
    keyword that is not given has the default of [isolate_signal]. *)
Record Kwargs : Type := mkKwargs {
  kw_bounds : option Bounds;
  kw_sigma : Q;
  kw_err : option (list Q);
  kw_radius : PyVal;
  kw_filt : string
}.

Definition no_kwargs : Kwargs := mkKwargs None 3 None PyNone "CLEAR".

(** ** The order mask builder *)

(** [for n, (ord1, ord2) in enumerate(masks): order1[:, n] = ord1; order2[:, n] = ord2] *)
Fixpoint set_masks (n : nat) (masks : list (list Q * list Q)) (order1 order2 : Frame)
  : option (Frame * Frame) :=
  match masks with
  | [] => Some (order1, order2)
  | (ord1, ord2) :: masks' =>
      order1' <- set_column order1 n ord1 ;;
      order2' <- set_column order2 n ord2 ;;
      set_masks (S n) masks' order1' order2'
  end.

(** The end of [order_masks]: trim for SUBSTRIP96 and return the pair. *)
Definition trim (subarray : string) (order1 order2 : Frame) : Frame * Frame :=
  if String.eqb subarray "SUBSTRIP96" then (head_rows 96 order1, head_rows 96 order2)
  else (order1, order2).

Section Builder.

Variable curve_fit : FitCall -> option (list Q).
Variable sched : Pool.Schedule.

(** [order_masks(frame, subarray, n_jobs, plot, save, **kwargs)].  The
    value is [Some (order1, order2)] for the returned pair and [None]
    for a bare [return].  [fuel] bounds the depth of the self-call. *)
Fixpoint order_masks (fuel : nat) (w : World) (frame : Frame) (subarray : string)
    (n_jobs : Z) (plot : bool) (save : bool) (kwargs : Kwargs)
  : option (Outcome (option (Frame * Frame)) * World) :=
  match fuel with
  | O => None
  | S fuel' =>
      (* Generate the trace masks *)
      if save then
        (* Make 2 unmasked frames *)
        let order1 := zeros_like frame in
        let order2 := zeros_like frame in
        (* Multiprocess spectral extraction for frames *)
        let w := print w "Coffee time! This takes about 3 minutes..." in
        match Pool.make n_jobs with
        | None => Some (Raised, w)
        | Some pool =>
            let func idx :=
              isolate_signal curve_fit idx frame (kw_bounds kwargs) (kw_sigma kwargs)
                             (kw_err kwargs) (kw_radius kwargs) (kw_filt kwargs) in
            match Pool.map pool sched func (Py.arange 2048) with
            | None => Some (Raised, w)
            | Some masks =>
                (* Set the mask in each column *)
                match set_masks 0 masks order1 order2 with
                | None => Some (Raised, w)
                | Some (order1, order2) =>
                    (* Save to file *)
                    let w := save_order_masks w (order1, order2) in
                    Some (Returned (Some (trim subarray order1 order2)), w)
                end
            end
        end
      (* Or grab them from file *)
      else
        match order_masks_npy w with
        | Some (order1, order2) =>
            Some (Returned (Some (trim subarray order1 order2)), w)
        | None =>
            let w := print w "No order mask file. Generating one now..." in
            (* order1, order2 = order_masks(frame, save=True, plot=plot); return *)
            match order_masks fuel' w frame "SUBSTRIP256" 4 plot true no_kwargs with
            | None => None
            | Some (Raised, w') => Some (Raised, w')
            | Some (Returned None, w') => Some (Raised, w')
            | Some (Returned (Some _), w') => Some (Returned None, w')
            end
        end
  end.

End Builder.

(** ** The wavelength-bin indexer *)

(** [enumerate(l)] *)
Definition enumerate {A : Type} (l : list A) : list (nat * A) :=
  combine (seq 0 (length l)) l.

(** [np.where(np.logical_and(wave_map >= dw0, wave_map < dw1))]: the
    coordinates of the selected pixels, row by row. *)
Definition where_between (wave_map : Frame) (dw0 dw1 : Q) : Bin :=
  flat_map
    (fun ir =>
       flat_map
         (fun jv =>
            if Qle_bool dw0 (snd jv) && Py.ltb (snd jv) dw1
            then [(fst ir, fst jv)] else [])
         (enumerate (snd ir)))
    (enumerate (rows wave_map)).

(** The edges [(dw0, dw1)] of the bin of sample [n], whose wavelength is
    [w]: the two [try ... except IndexError] blocks and the two means. *)
Definition bin_edges (waves : list Q) (n : nat) (w : Q) : Q * Q :=
  let w0 :=
    match Py.getitem waves (Z.of_nat n - 1) with
    | Some v => v
    | None => 0.1
    end in
  let w1 :=
    match Py.getitem waves (Z.of_nat n + 1) with
    | Some v => v
    | None => 10
    end in
  (Py.mean2 w0 w, Py.mean2 w1 w).

(** The inner loop: one bin per sample of [throughput[0]]. *)
Definition order_bins (throughput : list (list Q)) (wave_map : Frame)
  : option (list Bin) :=
  waves <- Py.getitem throughput 0 ;;
  Some (map (fun nw =>
               let dw := bin_edges waves (fst nw) (snd nw) in
               where_between wave_map (fst dw) (snd dw))
            (enumerate waves)).

(** The outer loop over [enumerate(zip(filters, wavecal))], appending
    to [signal_pixels[order]]. *)
Fixpoint fill_bins (order : nat) (pairs : list (list (list Q) * Frame))
    (signal_pixels : list (list Bin)) : option (list (list Bin)) :=
  match pairs with
  | [] => Some signal_pixels
  | (throughput, wave_map) :: pairs' =>
      bins <- order_bins throughput wave_map ;;
      cur <- Py.getitem signal_pixels (Z.of_nat order) ;;
      fill_bins (S order) pairs' (Py.update signal_pixels order (cur ++ bins))
  end.

(** The throughput tables of the files that exist, in the order 1, 2, 3. *)
Definition load_filters (w : World) : list (list (list Q)) :=
  flat_map (fun ord =>
              match throughput_txt w ord with
              | Some t => [t]
              | None => []
              end)
           [1; 2; 3]%Z.

Definition default_wavecal_file : string := "files/soss_wavelengths_fullframe.fits".

(** [wavelength_bins(save, subarray, wavecal_file)] *)
Fixpoint wavelength_bins (fuel : nat) (w : World) (save : bool) (subarray : string)
    (wavecal_file : option string) : option (Outcome (list (list Bin)) * World) :=
  match fuel with
  | O => None
  | S fuel' =>
      if save then
        (* Load the filters *)
        let filters := load_filters w in
        (* Load the wavelength calibration file *)
        let wavecal_file :=
          match wavecal_file with
          | None => default_wavecal_file
          | Some f => f
          end in
        match fits_data w wavecal_file with
        | None => Some (Raised, w)
        | Some data =>
            let wavecal := map swapaxes data in
            let signal_pixels := [[]; []; []] in
            (* Store the pixel coordinates of each wavelength bin for each order *)
            match fill_bins 0 (combine filters wavecal) signal_pixels with
            | None => Some (Raised, w)
            | Some signal_pixels =>
                (* Save to file *)
                let w := save_wavelength_bins w signal_pixels in
                Some (Returned signal_pixels, w)
            end
        end
      else
        (* Load from file *)
        match wavelength_bins_npy w with
        | Some signal_pixels => Some (Returned signal_pixels, w)
        | None =>
            let w := print w "No wavelength bin file. Generating one now..." in
            wavelength_bins fuel' w true "SUBSTRIP256" None
        end
  end.

(** ** What the specification says of the bins *)

(** The edges of the bin of sample [n]: the midpoints between the sample
    and its neighbours, with 0.1 before the first sample and 10 after
    the last. *)
Definition spec_bin_edges (waves : list Q) (n : nat) : Q * Q :=
  let w := nth n waves 0 in
  let w_prev := match n with O => 0.1 | S m => nth m waves 0 end in
  let w_next := if (S n <? length waves)%nat then nth (S n) waves 0 else 10 in
  ((w_prev + w) / 2, (w_next + w) / 2).

(** ** What the specification says of the masks *)

(** The radius when an integer one is supplied. *)
Definition int_radius (radius : PyVal) : option Z :=
  match radius with
  | PyInt z => Some z
  | PyBool b => Some (Z.b2z b)
  | PyNone | PyFloat _ => None
  end.

(** [lim] is the signal region of the three components [ps]: with the
    components in ascending order of position, the middle center plus
    and minus an integer radius, and without one from the lowest center
    minus its sigma times [sigma] to the highest center plus its sigma
    times [sigma]. *)
Definition signal_region (ps : list Gaussian) (sigma : Q) (radius : PyVal)
    (lim : Q * Q) : Prop :=
  exists lo mid hi,
    Permutation [lo; mid; hi] ps /\
    g_mu lo <= g_mu mid /\ g_mu mid <= g_mu hi /\
    lim = match int_radius radius with
          | Some r => (g_mu mid - inject_Z r, g_mu mid + inject_Z r)
          | None => (g_mu lo - g_sigma lo * sigma, g_mu hi + g_sigma hi * sigma)
          end.

(** Pixel [i] lies strictly inside [lim]. *)
Definition inside (lim : Q * Q) (i : nat) : Prop :=
  fst lim < inject_Z (Z.of_nat i) /\ inject_Z (Z.of_nat i) < snd lim.

(** The pixel test of [unmask], on pixel [i]. *)
Definition insideb (lim : Q * Q) (i : nat) : bool :=
  Py.ltb (fst lim) (inject_Z (Z.of_nat i)) && Py.ltb (inject_Z (Z.of_nat i)) (snd lim).

(** [mask] has [height] entries: 0 exactly at the pixels inside [lim],
    1 at all others. *)
Definition mask_of (lim : Q * Q) (height : nat) (mask : list Q) : Prop :=
  length mask = height /\
  forall i, (i < height)%nat ->
    (inside lim i <-> nth_error mask i = Some 0) /\
    (~ inside lim i <-> nth_error mask i = Some 1).

(** The column at which order 2 ends, for a frame of [height] rows. *)
Definition order2_cutoff (height : nat) : Z :=
  if (height =? 256)%nat then 1900%Z else 1050%Z.

(** Every entry is 0 or 1. *)
Definition binary (mask : list Q) : Prop := Forall (fun v => v = 0 \/ v = 1) mask.

Definition binary_frame (a : Frame) : Prop := Forall binary (rows a).

(** The mask file, when there is one, holds binary masks. *)
Definition cache_binary (w : World) : Prop :=
  match order_masks_npy w with
  | Some (order1, order2) => binary_frame order1 /\ binary_frame order2
  | None => True
  end.

(** The fit converges on every call and returns one value per parameter
    of the model. *)
Definition fit_converges (curve_fit : FitCall -> option (list Q)) : Prop :=
  forall call, exists params,
    curve_fit call = Some params /\ length params = n_params (fit_func call).

(** ** Shapes and entries *)

(** Every row has [ncols] entries, as in a numpy array. *)
Definition rectangular (a : Frame) : Prop :=
  Forall (fun r => length r = ncols a) (rows a).

(** [a[i, j]] for indices in range *)
Definition entry (a : Frame) (i j : nat) : option Q :=
  r <- nth_error (rows a) i ;; nth_error r j.

(** A valid index of a sequence of [len] items: [-len <= i < len]. *)
Definition in_range (len : nat) (i : Z) : Prop :=
  (- Z.of_nat len <= i < Z.of_nat len)%Z.

(** A rectangular frame of four rows and three columns. *)
Definition small_frame : Frame :=
  mkFrame 3 [[1; 2; 3]; [1; 2; 3]; [1; 2; 3]; [1; 2; 3]].

(** The zeros of a mask form one run: between two zeros there are only
    zeros. *)
Definition contiguous_zeros (mask : list Q) : Prop :=
  forall i j k, (i <= j <= k)%nat ->
    nth_error mask i = Some 0 -> nth_error mask k = Some 0 ->
    nth_error mask j = Some 0.

(** ** Test data *)

(** A fit that stops at the lower bounds. *)
Definition lower_bound_fit (call : FitCall) : option (list Q) :=
  let n := n_params (fit_func call) in
  Some (firstn n (fst (fit_bounds call) ++ repeat 0 n)).

(** A frame of two rows of 2048 counts. *)
Definition two_row_frame : Frame :=
  mkFrame 2048 [repeat 1 2048; repeat 2 2048].

(** A world without files. *)
Definition empty_world : World :=
  mkWorld None None (fun _ => None) (fun _ => None) [].

(** Two completion orders: first come first served, and last chunk
    first. *)
Definition in_order : Pool.Schedule := fun k => seq 0 k.
Definition reversed : Pool.Schedule := fun k => rev (seq 0 k).

(** Calibration files for the examples: three throughput tables of
    three samples each and a wavelength cube of three 1 x 3 maps. *)
Definition throughput_table (ord : Z) : option (list (list Q)) :=
  if (ord =? 1)%Z then Some [[1; 2; 3]; [1; 1; 1]]
  else if (ord =? 2)%Z then Some [[2; 3; 4]; [1; 1; 1]]
  else if (ord =? 3)%Z then Some [[3; 4; 5]; [1; 1; 1]]
  else None.

Definition wavecal_cube : list Frame :=
  [mkFrame 3 [[1; 2; 3]]; mkFrame 3 [[2; 3; 4]]; mkFrame 3 [[3; 4; 5]]].

Definition wavecal_files (path : string) : option (list Frame) :=
  if String.eqb path default_wavecal_file then Some wavecal_cube else None.

Definition calibrated_world : World :=
  mkWorld None None throughput_table wavecal_files [].

(** The same files without [GR700XD_1.txt]. *)
Definition world_without_order1 : World :=
  mkWorld None None (fun ord => if (ord =? 1)%Z then None else throughput_table ord)
          wavecal_files [].

(** * Properties *)

(** ** Indexing and list helpers *)

Lemma index_nonneg (len : nat) (j : nat) :
  (j < len)%nat -> Py.index len (Z.of_nat j) = Some j.
Proof.
  intros Hj. unfold Py.index.
  replace (0 <=? Z.of_nat j)%Z with true by (symmetry; apply Z.leb_le; lia).
  replace (Z.of_nat j <? Z.of_nat len)%Z with true by (symmetry; apply Z.ltb_lt; lia).
  simpl. now rewrite Nat2Z.id.
Qed.

Lemma index_bound (len : nat) (i : Z) (j : nat) :
  Py.index len i = Some j -> (j < len)%nat.
Proof.
  unfold Py.index.
  destruct ((0 <=? i)%Z && (i <? Z.of_nat len)%Z) eqn:E1.
  - apply andb_prop in E1 as [H0 H1].
    apply Z.leb_le in H0. apply Z.ltb_lt in H1.
    intros [= <-]. lia.
  - destruct ((- Z.of_nat len <=? i)%Z && (i <? 0)%Z) eqn:E2; [|discriminate].
    apply andb_prop in E2 as [H0 H1].
    apply Z.leb_le in H0. apply Z.ltb_lt in H1.
    intros [= <-]. lia.
Qed.

Lemma getitem_nonneg {A : Type} (l : list A) (j : nat) :
  (j < length l)%nat -> Py.getitem l (Z.of_nat j) = nth_error l j.
Proof.
  intros Hj. unfold Py.getitem. now rewrite index_nonneg.
Qed.

Lemma getitem_some {A : Type} (l : list A) (i : Z) :
  Py.index (length l) i <> None -> exists a, Py.getitem l i = Some a.
Proof.
  unfold Py.getitem. destruct (Py.index (length l) i) as [j|] eqn:E; [|congruence].
  intros _. apply index_bound in E.
  destruct (nth_error l j) eqn:En; [eauto|].
  apply nth_error_None in En. lia.
Qed.

Lemma arange_length (n : nat) : length (Py.arange n) = n.
Proof. unfold Py.arange. now rewrite length_map, length_seq. Qed.

Lemma arange_nth (n j : nat) :
  (j < n)%nat -> nth_error (Py.arange n) j = Some (Z.of_nat j).
Proof.
  intros Hj. unfold Py.arange.
  rewrite nth_error_map, nth_error_seq.
  destruct (Nat.ltb_spec j n); [reflexivity | lia].
Qed.

(** ** The trace-center polynomial *)

Lemma Qpower_S (x : Q) (n : nat) : x ^ Z.of_nat (S n) == x * x ^ Z.of_nat n.
Proof.
  rewrite Nat2Z.inj_succ. unfold Z.succ.
  rewrite Z.add_comm, Qpower_plus' by lia.
  now rewrite Qpower_1_r.
Qed.

(** Horner's scheme started from [acc] on the remaining coefficients. *)
Lemma horner_acc (p : list Q) (x acc : Q) :
  fold_left (fun y pv => y * x + pv) p acc
  == acc * x ^ Z.of_nat (length p) + poly_sum p x.
Proof.
  revert acc. induction p as [|c p IH]; intros acc.
  - simpl. ring.
  - cbn [fold_left poly_sum length]. rewrite IH, Qpower_S. ring.
Qed.

Lemma polyval_poly_sum (p : list Q) (x : Q) : Py.polyval p x == poly_sum p x.
Proof.
  unfold Py.polyval. rewrite horner_acc. ring.
Qed.

Lemma trace_polynomial_rows (order : Z) :
  order = 1%Z \/ order = 2%Z ->
  trace_polynomial order =
  Some (map (fun x => Py.polyval (order_coeffs order) (inject_Z x)) (Py.arange 2048)).
Proof.
  intros [-> | ->]; reflexivity.
Qed.

Lemma trace_polynomial_getitem (order : Z) (idx : Z) :
  order = 1%Z \/ order = 2%Z ->
  Py.index 2048 idx <> None ->
  exists ys y, trace_polynomial order = Some ys /\ Py.getitem ys idx = Some y.
Proof.
  intros Ho Hi. rewrite (trace_polynomial_rows order Ho).
  eexists. 
  destruct (getitem_some (map (fun x => Py.polyval (order_coeffs order) (inject_Z x)) (Py.arange 2048)) idx) as [y Hy].
  - now rewrite length_map, arange_length.
  - eauto.
Qed.

(** C8.  For each of the orders 1 and 2, [trace_polynomial] returns a
    sequence of length 2048, and for every column index [idx] in
    [0, 2048) its [idx]-th entry is the value at [idx] of the polynomial
    with that order's fixed coefficients. *)
Theorem trace_polynomial_spec (order : Z) (Horder : order = 1%Z \/ order = 2%Z) :
  exists ys,
    trace_polynomial order = Some ys /\
    length ys = 2048%nat /\
    forall idx, (0 <= idx < 2048)%Z ->
      exists y, Py.getitem ys idx = Some y /\
                y == poly_sum (order_coeffs order) (inject_Z idx).
Proof.
  rewrite (trace_polynomial_rows order Horder).
  eexists. split; [reflexivity|]. split.
  - now rewrite length_map, arange_length.
  - intros idx Hidx.
    exists (Py.polyval (order_coeffs order) (inject_Z idx)). split.
    + rewrite <- (Z2Nat.id idx) at 1 by lia.
      assert (Hlt : (Z.to_nat idx < 2048)%nat) by lia.
      rewrite getitem_nonneg by (now rewrite length_map, arange_length).
      rewrite nth_error_map, arange_nth by exact Hlt.
      simpl. now rewrite Z2Nat.id by lia.
    + apply polyval_poly_sum.
Qed.

Lemma trace_polynomial_spec_witness :
  exists ys,
    trace_polynomial 1 = Some ys /\
    length ys = 2048%nat /\
    forall idx, (0 <= idx < 2048)%Z ->
      exists y, Py.getitem ys idx = Some y /\
                y == poly_sum (order_coeffs 1) (inject_Z idx).
Proof.
  apply (trace_polynomial_spec 1). left. reflexivity.
Defined.

(** The first column of each order, from the constant terms. *)
Example trace_polynomial_first_column :
  (exists ys y, trace_polynomial 1 = Some ys /\ Py.getitem ys 0 = Some y /\
                y == 8.30680347e+01) /\
  (exists ys y, trace_polynomial 2 = Some ys /\ Py.getitem ys 0 = Some y /\
                y == 9.96766537e+01).
Proof.
  split; do 2 eexists; (split; [reflexivity|]); (split; [reflexivity|]); reflexivity.
Qed.

(** ** Sorting the components *)

Lemma ltb_lt (a b : Q) : Py.ltb a b = true <-> a < b.
Proof.
  unfold Py.ltb. rewrite negb_true_iff, <- not_true_iff_false, Qle_bool_iff.
  split; [apply Qnot_le_lt | apply Qlt_not_le].
Qed.

Lemma ltb_ge (a b : Q) : Py.ltb a b = false <-> b <= a.
Proof.
  unfold Py.ltb. rewrite negb_false_iff. apply Qle_bool_iff.
Qed.

Section SortedFacts.
Context {A : Type} (key : A -> Q).

Lemma insert_perm (a : A) (l : list A) : Permutation (a :: l) (Py.insert key a l).
Proof.
  induction l as [|b l IH]; simpl; [reflexivity|].
  destruct (Py.ltb (key b) (key a)); [|reflexivity].
  rewrite perm_swap. now constructor.
Qed.

Lemma sorted_perm (l : list A) : Permutation l (Py.sorted key l).
Proof.
  induction l as [|a l IH]; simpl; [reflexivity|].
  rewrite <- insert_perm. now constructor.
Qed.


Lemma insert_sorted (a : A) (l : list A) :
  Sorted (Py.key_le key) l -> Sorted (Py.key_le key) (Py.insert key a l).
Proof.
  induction 1 as [|b l Hs IH Hhd]; simpl.
  - repeat constructor.
  - destruct (Py.ltb (key b) (key a)) eqn:E.
    + constructor; [exact IH|].
      apply ltb_lt in E.
      destruct l as [|c l]; simpl.
      * constructor. now apply Qlt_le_weak.
      * destruct (Py.ltb (key c) (key a)); constructor.
        -- now inversion Hhd.
        -- now apply Qlt_le_weak.
    + apply ltb_ge in E. constructor; [now constructor|]. now constructor.
Qed.

Lemma sorted_sorted (l : list A) : Sorted (Py.key_le key) (Py.sorted key l).
Proof.
  induction l as [|a l IH]; simpl; [constructor|]. now apply insert_sorted.
Qed.

(** Sorting three items: a permutation in ascending key order. *)
Lemma sorted_three (a b c : A) :
  exists lo mid hi,
    Py.sorted key [a; b; c] = [lo; mid; hi] /\
    Permutation [lo; mid; hi] [a; b; c] /\
    key lo <= key mid /\ key mid <= key hi.
Proof.
  pose proof (sorted_perm [a; b; c]) as Hp.
  pose proof (sorted_sorted [a; b; c]) as Hs.
  pose proof (Permutation_length Hp) as Hl.
  destruct (Py.sorted key [a; b; c]) as [|lo [|mid [|hi [|? ?]]]]; try discriminate.
  exists lo, mid, hi. split; [reflexivity|]. split; [now symmetry|].
  inversion Hs as [|? ? Hs' Hh]; subst.
  inversion Hs' as [|? ? _ Hh']; subst.
  inversion Hh; subst. inversion Hh'; subst. now split.
Qed.
End SortedFacts.

(** ** The column signal isolator *)

(** Case analysis on a bind that returned. *)
Ltac bind_inv H :=
  match type of H with
  | Py.bind ?m _ = Some _ =>
      let E := fresh "E" in
      destruct m eqn:E; [cbn [Py.bind] in H | discriminate H]
  end.

Lemma column_length (frame : Frame) (idx : Z) (col : list Q) :
  column frame idx = Some col -> length col = nrows frame.
Proof.
  unfold column. intros H. bind_inv H. injection H as <-.
  now rewrite length_map.
Qed.

Lemma column_some (frame : Frame) (idx : Z) :
  Py.index (ncols frame) idx <> None -> exists col, column frame idx = Some col.
Proof.
  unfold column. destruct (Py.index (ncols frame) idx); simpl; [eauto | congruence].
Qed.

Lemma map_const_seq {A B : Type} (c : B) (l : list A) (s : nat) :
  map (fun _ => c) l = map (fun _ => c) (seq s (length l)).
Proof.
  revert s. induction l as [|a l IH]; intros s; simpl; [reflexivity|].
  f_equal. apply IH.
Qed.

Lemma combine_map_same {A B C : Type} (f : A -> B) (g : A -> C) (l : list A) :
  combine (map f l) (map g l) = map (fun a => (f a, g a)) l.
Proof.
  induction l as [|a l IH]; simpl; [reflexivity|]. now rewrite IH.
Qed.

Lemma insideb_spec (lim : Q * Q) (i : nat) : insideb lim i = true <-> inside lim i.
Proof.
  unfold insideb, inside. now rewrite andb_true_iff, !ltb_lt.
Qed.

Lemma unmask_ones (col : list Q) (lim : Q * Q) :
  unmask (Py.ones_like col) (Py.arange (length col)) lim
  = map (fun i => if insideb lim i then 0 else 1) (seq 0 (length col)).
Proof.
  unfold unmask, Py.ones_like, Py.arange.
  rewrite (map_const_seq 1 col 0), combine_map_same, map_map.
  reflexivity.
Qed.

Lemma unmask_mask_of (col : list Q) (lim : Q * Q) :
  mask_of lim (length col) (unmask (Py.ones_like col) (Py.arange (length col)) lim).
Proof.
  rewrite unmask_ones. split.
  - now rewrite length_map, length_seq.
  - intros i Hi.
    rewrite nth_error_map, nth_error_seq.
    destruct (Nat.ltb_spec i (length col)); [|lia]. simpl.
    rewrite <- insideb_spec.
    destruct (insideb lim i); split; split; try congruence; try discriminate.
Qed.

Lemma unmask_binary (col : list Q) (lim : Q * Q) :
  binary (unmask (Py.ones_like col) (Py.arange (length col)) lim).
Proof.
  rewrite unmask_ones. apply Forall_map, Forall_forall. intros i _.
  destruct (insideb lim i); auto.
Qed.

Lemma ones_like_binary (col : list Q) : binary (Py.ones_like col).
Proof.
  apply Forall_map, Forall_forall. auto.
Qed.

Lemma ones_like_repeat (col : list Q) : Py.ones_like col = repeat 1 (length col).
Proof.
  induction col as [|a col IH]; simpl; [reflexivity|]. now rewrite <- IH.
Qed.

(** What a returning call went through. *)
Lemma isolate_signal_inv (curve_fit : FitCall -> option (list Q)) (idx : Z)
    (frame : Frame) (bounds : option Bounds) (sigma : Q) (err : option (list Q))
    (radius : PyVal) (filt : string) (ord1 ord2 : list Q) :
  isolate_signal curve_fit idx frame bounds sigma err radius filt = Some (ord1, ord2) ->
  exists col call fitted lim1,
    column frame idx = Some col /\
    fit_call idx frame bounds err filt = Some call /\
    curve_fit call = Some fitted /\
    order_limits (switch_orders fitted) 0 sigma radius = Some lim1 /\
    ord1 = unmask (Py.ones_like col) (Py.arange (length col)) lim1 /\
    match fit_func call with
    | batman => ord2 = Py.ones_like col
    | batmen =>
        exists lim2,
          order_limits (switch_orders fitted) 6 sigma radius = Some lim2 /\
          ord2 = unmask (Py.ones_like col) (Py.arange (length col)) lim2
    end.
Proof.
  unfold isolate_signal. intros H.
  bind_inv H. bind_inv H. bind_inv H. bind_inv H.
  match goal with
  | E : column _ _ = Some ?c, E0 : fit_call _ _ _ _ _ = Some ?f,
    E1 : curve_fit _ = Some ?p, E2 : order_limits _ 0 _ _ = Some ?q |- _ =>
      exists c, f, p, q; repeat (split; [assumption || reflexivity|])
  end.
  destruct (fit_func _).
  - injection H as <- <-. split; reflexivity.
  - bind_inv H. injection H as <- <-. split; [reflexivity|]. eauto.
Qed.

Lemma limits_three (lo mid hi : Gaussian) (sigma : Q) (radius : PyVal) :
  limits [lo; mid; hi] sigma radius =
  Some match int_radius radius with
       | Some r => (g_mu mid - inject_Z r, g_mu mid + inject_Z r)
       | None => (g_mu lo - g_sigma lo * sigma, g_mu hi + g_sigma hi * sigma)
       end.
Proof.
  destruct radius; reflexivity.
Qed.

Lemma components_three (params : list Q) (off : Z) (ps : list Gaussian) :
  components params off = Some ps -> exists p1 p2 p3, ps = [p1; p2; p3].
Proof.
  unfold components. intros H.
  do 6 bind_inv H. injection H as <-. eauto.
Qed.

(** The limits computed for an order are the signal region of its
    three components. *)
Lemma order_limits_region (params : list Q) (off : Z) (sigma : Q) (radius : PyVal)
    (lim : Q * Q) :
  order_limits params off sigma radius = Some lim ->
  exists ps, components params off = Some ps /\ signal_region ps sigma radius lim.
Proof.
  unfold order_limits. intros H. bind_inv H.
  match goal with E : components _ _ = Some ?l |- _ =>
    exists l; split; [reflexivity|];
    destruct (components_three _ _ _ E) as (p1 & p2 & p3 & ->)
  end.
  destruct (sorted_three g_mu p1 p2 p3) as (lo & mid & hi & Hs & Hp & H1 & H2).
  rewrite Hs, limits_three in H. injection H as <-.
  exists lo, mid, hi. auto.
Qed.

Lemma fit_setup_inv (idx : Z) (col : list Q) (bounds : option Bounds) (filt : string)
    (func : PsfModel) (b : Bounds) :
  fit_setup idx col bounds filt = Some (func, b) ->
  exists x1 x2,
    if (order2_cutoff (length col) <=? idx)%Z || String.eqb (Py.lower filt) "f277w" then
      func = batman /\
      b = ([x1 - 3; 2; 100; 2; 300; 5], [x1 + 3; 4; 1e6; 8; 1e6; 10])
    else
      func = batmen /\
      b = ([x2 - 3; 2; 3; 2; 3; 5; x1 - 3; 2; 100; 2; 300; 5],
           [x2 + 3; 4; 1e3; 8; 1e3; 10; x1 + 3; 4; 1e6; 8; 1e6; 10]).
Proof.
  unfold fit_setup, order2_cutoff. intros H. do 4 bind_inv H.
  match goal with
  | T1 : trace_polynomial 1 = Some ?l1, E1 : Py.getitem ?l1 idx = Some ?a,
    T2 : trace_polynomial 2 = Some ?l2, E2 : Py.getitem ?l2 idx = Some ?b |- _ =>
      exists a, b
  end.
  destruct ((_ <=? idx)%Z || _); injection H as <- <-; split; reflexivity.
Qed.

Lemma fit_call_inv (idx : Z) (frame : Frame) (bounds : option Bounds)
    (err : option (list Q)) (filt : string) (call : FitCall) :
  fit_call idx frame bounds err filt = Some call ->
  exists col,
    column frame idx = Some col /\
    fit_setup idx col bounds filt = Some (fit_func call, fit_bounds call) /\
    fit_x call = Py.arange (length col) /\ fit_y call = col /\ fit_sigma call = err.
Proof.
  unfold fit_call. intros H. do 2 bind_inv H. injection H as <-.
  eexists. split; [reflexivity|]. simpl.
  match goal with E : fit_setup _ _ _ _ = Some ?p |- _ => destruct p end.
  auto.
Qed.

(** C1.  When [isolate_signal] returns, the fit was run on the column
    and, for order 1 and (on a two-order fit) for order 2: the three
    Gaussian components of the order, put in ascending order of center,
    give the signal region (middle center minus and plus the radius when
    an integer radius is supplied, otherwise lowest center minus its
    sigma times the multiplier up to highest center plus its sigma times
    the multiplier), and the returned mask has one entry per row of the
    frame, 0 exactly at the pixels strictly inside that region and 1
    everywhere else. *)
Theorem isolate_signal_regions (curve_fit : FitCall -> option (list Q)) (idx : Z)
    (frame : Frame) (bounds : option Bounds) (sigma : Q) (err : option (list Q))
    (radius : PyVal) (filt : string) (ord1 ord2 : list Q)
    (Hrun : isolate_signal curve_fit idx frame bounds sigma err radius filt
            = Some (ord1, ord2)) :
  exists call fitted,
    fit_call idx frame bounds err filt = Some call /\
    curve_fit call = Some fitted /\
    (exists ps1 lim1,
        components (switch_orders fitted) 0 = Some ps1 /\
        signal_region ps1 sigma radius lim1 /\
        mask_of lim1 (nrows frame) ord1) /\
    (fit_func call = batmen ->
     exists ps2 lim2,
        components (switch_orders fitted) 6 = Some ps2 /\
        signal_region ps2 sigma radius lim2 /\
        mask_of lim2 (nrows frame) ord2).
Proof.
  apply isolate_signal_inv in Hrun
    as (col & call & fitted & lim1 & Hcol & Hcall & Hfit & Hlim1 & -> & H2).
  apply column_length in Hcol as Hlen.
  exists call, fitted. repeat split; try assumption.
  - destruct (order_limits_region _ _ _ _ _ Hlim1) as (ps1 & Hc & Hr).
    exists ps1, lim1. rewrite <- Hlen. auto using unmask_mask_of.
  - intros Hf. rewrite Hf in H2. destruct H2 as (lim2 & Hlim2 & ->).
    destruct (order_limits_region _ _ _ _ _ Hlim2) as (ps2 & Hc & Hr).
    exists ps2, lim2. rewrite <- Hlen. auto using unmask_mask_of.
Qed.

Lemma getitem_in_range {A : Type} (l : list A) (i : Z) :
  (0 <= i < Z.of_nat (length l))%Z -> exists a, Py.getitem l i = Some a.
Proof.
  intros Hi. apply getitem_some.
  rewrite <- (Z2Nat.id i) by lia. rewrite index_nonneg by lia. discriminate.
Qed.

Lemma components_some (params : list Q) (off : Z) :
  (0 <= off)%Z -> (off + 6 <= Z.of_nat (length params))%Z ->
  exists ps, components params off = Some ps.
Proof.
  intros H0 H6. unfold components.
  destruct (getitem_in_range params off) as [c ->]; [lia|].
  destruct (getitem_in_range params (off + 1)) as [s ->]; [lia|].
  destruct (getitem_in_range params (off + 2)) as [a ->]; [lia|].
  destruct (getitem_in_range params (off + 3)) as [so ->]; [lia|].
  destruct (getitem_in_range params (off + 4)) as [ao ->]; [lia|].
  destruct (getitem_in_range params (off + 5)) as [d ->]; [lia|].
  simpl. eauto.
Qed.

Lemma order_limits_some (params : list Q) (off : Z) (sigma : Q) (radius : PyVal) :
  (0 <= off)%Z -> (off + 6 <= Z.of_nat (length params))%Z ->
  exists lim, order_limits params off sigma radius = Some lim.
Proof.
  intros H0 H6. unfold order_limits.
  destruct (components_some params off H0 H6) as [ps Hps]. rewrite Hps. simpl.
  destruct (components_three _ _ _ Hps) as (p1 & p2 & p3 & ->).
  destruct (sorted_three g_mu p1 p2 p3) as (lo & mid & hi & -> & _).
  rewrite limits_three. eauto.
Qed.

Lemma switch_orders_length (params : list Q) :
  length (switch_orders params) = length params.
Proof.
  unfold switch_orders. destruct (Nat.eqb_spec (length params) 12) as [E|]; [|reflexivity].
  rewrite length_app, length_skipn, length_firstn. lia.
Qed.

Lemma fit_setup_some (idx : Z) (col : list Q) (bounds : option Bounds) (filt : string) :
  Py.index 2048 idx <> None ->
  exists fb, fit_setup idx col bounds filt = Some fb.
Proof.
  intros Hi. unfold fit_setup.
  destruct (trace_polynomial_getitem 1 idx) as (t1 & x1 & -> & H1); [auto | auto |].
  cbn [Py.bind]. rewrite H1. cbn [Py.bind].
  destruct (trace_polynomial_getitem 2 idx) as (t2 & x2 & -> & H2); [auto | auto |].
  cbn [Py.bind]. rewrite H2. cbn [Py.bind].
  destruct (_ || _); eauto.
Qed.

(** The call returns a pair of masks as soon as [idx] is a column of the
    frame and of the trace polynomial and the fit converges. *)
Lemma isolate_signal_returns (curve_fit : FitCall -> option (list Q)) (idx : Z)
    (frame : Frame) (bounds : option Bounds) (sigma : Q) (err : option (list Q))
    (radius : PyVal) (filt : string) :
  fit_converges curve_fit ->
  Py.index (ncols frame) idx <> None ->
  Py.index 2048 idx <> None ->
  exists ord1 ord2,
    isolate_signal curve_fit idx frame bounds sigma err radius filt = Some (ord1, ord2).
Proof.
  intros Hfit Hcol Hidx. unfold isolate_signal, fit_call.
  destruct (column_some frame idx Hcol) as [col ->]. cbn [Py.bind].
  destruct (fit_setup_some idx col bounds filt Hidx) as [[func b] Hfb].
  rewrite Hfb. cbn [Py.bind fst snd fit_func].
  destruct (Hfit (mkFitCall func (Py.arange (length col)) col b err))
    as (params & -> & Hlen).
  cbn [Py.bind fit_func] in *.
  destruct (order_limits_some (switch_orders params) 0 sigma radius) as [lim1 ->];
    [lia | rewrite switch_orders_length, Hlen; destruct func; simpl; lia |].
  cbn [Py.bind]. destruct func; [eauto|].
  destruct (order_limits_some (switch_orders params) 6 sigma radius) as [lim2 ->];
    [lia | rewrite switch_orders_length, Hlen; simpl; lia |].
  cbn [Py.bind]. eauto.
Qed.

Lemma lower_bound_fit_converges : fit_converges lower_bound_fit.
Proof.
  intros call. unfold lower_bound_fit. eexists. split; [reflexivity|].
  rewrite length_firstn, length_app, repeat_length. lia.
Qed.

(** A four-row frame and a fit with a fixed answer, for the examples. *)
Example isolate_signal_two_orders :
  isolate_signal (fun _ => Some [2; 1; 1; 1; 1; 1; 1; 1; 1; 1; 1; 1]) 0
                 (mkFrame 3 [[1; 2; 3]; [1; 2; 3]; [1; 2; 3]; [1; 2; 3]])
                 None (1 # 2) None (PyInt 1) "CLEAR"
  = Some ([1; 0; 1; 1], [1; 1; 0; 1]).
Proof. reflexivity. Qed.

Lemma isolate_signal_regions_witness :
  exists call fitted,
    fit_call 0 (mkFrame 3 [[1; 2; 3]; [1; 2; 3]; [1; 2; 3]; [1; 2; 3]]) None None "CLEAR"
    = Some call /\
    (fun _ => Some [2; 1; 1; 1; 1; 1; 1; 1; 1; 1; 1; 1]) call = Some fitted /\
    (exists ps1 lim1,
        components (switch_orders fitted) 0 = Some ps1 /\
        signal_region ps1 (1 # 2) (PyInt 1) lim1 /\
        mask_of lim1 4 [1; 0; 1; 1]) /\
    (fit_func call = batmen ->
     exists ps2 lim2,
        components (switch_orders fitted) 6 = Some ps2 /\
        signal_region ps2 (1 # 2) (PyInt 1) lim2 /\
        mask_of lim2 4 [1; 1; 0; 1]).
Proof.
  apply (isolate_signal_regions
           (fun _ => Some [2; 1; 1; 1; 1; 1; 1; 1; 1; 1; 1; 1]) 0
           (mkFrame 3 [[1; 2; 3]; [1; 2; 3]; [1; 2; 3]; [1; 2; 3]])
           None (1 # 2) None (PyInt 1) "CLEAR").
  reflexivity.
Defined.

Lemma fit_call_single_order (idx : Z) (frame : Frame) (bounds : option Bounds)
    (err : option (list Q)) (filt : string) (call : FitCall) :
  Py.lower filt = "f277w"%string \/ (order2_cutoff (nrows frame) <= idx)%Z ->
  fit_call idx frame bounds err filt = Some call ->
  fit_func call = batman /\
  length (fst (fit_bounds call)) = 6%nat /\ length (snd (fit_bounds call)) = 6%nat.
Proof.
  intros Hcond Hcall.
  apply fit_call_inv in Hcall as (col & Hcol & Hset & _).
  apply column_length in Hcol.
  apply fit_setup_inv in Hset as (x1 & x2 & Hset).
  replace ((order2_cutoff (length col) <=? idx)%Z || String.eqb (Py.lower filt) "f277w")
    with true in Hset.
  - destruct Hset as [-> ->]. auto.
  - symmetry. apply orb_true_iff. destruct Hcond as [Hf | Hc].
    + right. rewrite Hf. reflexivity.
    + left. rewrite Hcol. now apply Z.leb_le.
Qed.

(** C2.  When the filter is 'F277W' or the column index is at or beyond
    the order-2 cutoff (1900 for a frame of 256 rows, 1050 otherwise),
    the fit is called with the single-order model, whose bounds have 6
    entries, and the order-2 mask that is returned is all ones. *)
Theorem order2_fully_excluded (curve_fit : FitCall -> option (list Q)) (idx : Z)
    (frame : Frame) (bounds : option Bounds) (sigma : Q) (err : option (list Q))
    (radius : PyVal) (filt : string)
    (Hcond : filt = "F277W"%string \/ (order2_cutoff (nrows frame) <= idx)%Z) :
  (forall call,
      fit_call idx frame bounds err filt = Some call ->
      fit_func call = batman /\ n_params (fit_func call) = 6%nat /\
      length (fst (fit_bounds call)) = 6%nat /\
      length (snd (fit_bounds call)) = 6%nat) /\
  (forall ord1 ord2,
      isolate_signal curve_fit idx frame bounds sigma err radius filt = Some (ord1, ord2) ->
      ord2 = repeat 1 (nrows frame)).
Proof.
  assert (Hcond' : Py.lower filt = "f277w"%string \/ (order2_cutoff (nrows frame) <= idx)%Z).
  { destruct Hcond as [-> | H]; [left; reflexivity | now right]. }
  split.
  - intros call Hcall.
    destruct (fit_call_single_order _ _ _ _ _ _ Hcond' Hcall) as (Hf & Hl & Hu).
    rewrite Hf. auto.
  - intros ord1 ord2 Hrun.
    apply isolate_signal_inv in Hrun
      as (col & call & fitted & lim1 & Hcol & Hcall & _ & _ & _ & H2).
    destruct (fit_call_single_order _ _ _ _ _ _ Hcond' Hcall) as (Hf & _).
    rewrite Hf in H2. subst ord2.
    rewrite ones_like_repeat. f_equal. now apply column_length in Hcol.
Qed.

Lemma order2_fully_excluded_witness :
  (forall call,
      fit_call 1 (mkFrame 3 [[1; 2; 3]; [1; 2; 3]; [1; 2; 3]; [1; 2; 3]]) None None "F277W"
      = Some call ->
      fit_func call = batman /\ n_params (fit_func call) = 6%nat /\
      length (fst (fit_bounds call)) = 6%nat /\
      length (snd (fit_bounds call)) = 6%nat) /\
  (forall ord1 ord2,
      isolate_signal lower_bound_fit 1
                     (mkFrame 3 [[1; 2; 3]; [1; 2; 3]; [1; 2; 3]; [1; 2; 3]])
                     None 3 None PyNone "F277W" = Some (ord1, ord2) ->
      ord2 = repeat 1 4).
Proof.
  apply (order2_fully_excluded lower_bound_fit 1
           (mkFrame 3 [[1; 2; 3]; [1; 2; 3]; [1; 2; 3]; [1; 2; 3]])
           None 3 None PyNone "F277W").
  left. reflexivity.
Defined.

(** The single-order branch at work: filter F277W, and a column beyond
    the cutoff of a two-row frame. *)
Example isolate_signal_f277w :
  isolate_signal (fun _ => Some [2; 1; 1; 1; 1; 1]) 0
                 (mkFrame 3 [[1; 2; 3]; [1; 2; 3]; [1; 2; 3]; [1; 2; 3]])
                 None (1 # 2) None PyNone "F277W"
  = Some ([1; 0; 0; 0], [1; 1; 1; 1]).
Proof. reflexivity. Qed.

Example isolate_signal_beyond_cutoff :
  isolate_signal lower_bound_fit 1050 two_row_frame None 3 None PyNone "CLEAR"
  = Some ([1; 1], [1; 1]).
Proof. reflexivity. Qed.

Lemma limits_not_int (ps : list Gaussian) (sigma : Q) (radius : PyVal) :
  isinstance_int radius = false -> limits ps sigma radius = limits ps sigma PyNone.
Proof.
  destruct radius; simpl; intros H; try discriminate H; reflexivity.
Qed.

(** C9.  A [radius] that is not an [int] under [isinstance] (a float,
    [None]) is ignored: the limits are the sigma-based ones, no error is
    raised for it, and the call behaves as if no radius had been given.
    The radius-based region is therefore used only for an [int]. *)
Theorem radius_not_int_ignored (curve_fit : FitCall -> option (list Q)) (idx : Z)
    (frame : Frame) (bounds : option Bounds) (sigma : Q) (err : option (list Q))
    (radius : PyVal) (filt : string)
    (Hradius : isinstance_int radius = false) :
  (forall lo mid hi,
      limits [lo; mid; hi] sigma radius
      = Some (g_mu lo - g_sigma lo * sigma, g_mu hi + g_sigma hi * sigma)) /\
  (forall params off,
      order_limits params off sigma radius = order_limits params off sigma PyNone) /\
  isolate_signal curve_fit idx frame bounds sigma err radius filt
  = isolate_signal curve_fit idx frame bounds sigma err PyNone filt.
Proof.
  assert (Hlim : forall params off,
             order_limits params off sigma radius = order_limits params off sigma PyNone).
  { intros params off. unfold order_limits.
    destruct (components params off); simpl; [|reflexivity].
    now apply limits_not_int. }
  split; [|split].
  - intros lo mid hi. rewrite limits_not_int by assumption. reflexivity.
  - exact Hlim.
  - unfold isolate_signal.
    destruct (column frame idx); simpl; [|reflexivity].
    destruct (fit_call idx frame bounds err filt); simpl; [|reflexivity].
    destruct (curve_fit _); simpl; [|reflexivity].
    rewrite !Hlim. reflexivity.
Qed.

Lemma radius_not_int_ignored_witness :
  (forall lo mid hi,
      limits [lo; mid; hi] 3 (PyFloat 2.5)
      = Some (g_mu lo - g_sigma lo * 3, g_mu hi + g_sigma hi * 3)) /\
  (forall params off,
      order_limits params off 3 (PyFloat 2.5) = order_limits params off 3 PyNone) /\
  isolate_signal lower_bound_fit 0 two_row_frame None 3 None (PyFloat 2.5) "CLEAR"
  = isolate_signal lower_bound_fit 0 two_row_frame None 3 None PyNone "CLEAR".
Proof.
  apply (radius_not_int_ignored lower_bound_fit 0 two_row_frame None 3 None
           (PyFloat 2.5) "CLEAR").
  reflexivity.
Defined.

(** With an [int] radius (a [bool] included) the region is the middle
    center plus and minus the radius. *)
Lemma limits_int (lo mid hi : Gaussian) (sigma : Q) (radius : PyVal) :
  isinstance_int radius = true ->
  exists r, int_radius radius = Some r /\
            limits [lo; mid; hi] sigma radius
            = Some (g_mu mid - inject_Z r, g_mu mid + inject_Z r).
Proof.
  destruct radius; simpl; intros H; try discriminate H; eauto.
Qed.

(** A float radius and no radius give the same masks; an int radius
    gives others. *)
Example radius_float_vs_int :
  let fit := fun _ : FitCall => Some [2; 1; 1; 1; 1; 1] in
  let frame := mkFrame 3 [[1; 2; 3]; [1; 2; 3]; [1; 2; 3]; [1; 2; 3]] in
  isolate_signal fit 0 frame None (1 # 2) None (PyFloat 1) "F277W"
  = Some ([1; 0; 0; 0], [1; 1; 1; 1]) /\
  isolate_signal fit 0 frame None (1 # 2) None (PyInt 1) "F277W"
  = Some ([1; 1; 0; 1], [1; 1; 1; 1]).
Proof. split; reflexivity. Qed.

(** The [bounds] argument never reaches the fit: both branches assign
    [bounds] before [curve_fit] is called. *)
Lemma fit_call_ignores_bounds (idx : Z) (frame : Frame) (b1 b2 : option Bounds)
    (err : option (list Q)) (filt : string) :
  fit_call idx frame b1 err filt = fit_call idx frame b2 err filt.
Proof. reflexivity. Qed.

Lemma isolate_signal_ignores_bounds (curve_fit : FitCall -> option (list Q)) (idx : Z)
    (frame : Frame) (b1 b2 : option Bounds) (sigma : Q) (err : option (list Q))
    (radius : PyVal) (filt : string) :
  isolate_signal curve_fit idx frame b1 sigma err radius filt
  = isolate_signal curve_fit idx frame b2 sigma err radius filt.
Proof. reflexivity. Qed.

(** C4.  The caller's bounds are not used.  For column 0 of a four-row
    frame, filter F277W and the caller's bounds [([0]*6, [1]*6)], the
    fit is called with exactly the call made when no bounds are given,
    and the bounds of that call are the built-in ones, not the caller's. *)
Theorem caller_bounds_overwritten :
  let frame := mkFrame 3 [[1; 2; 3]; [1; 2; 3]; [1; 2; 3]; [1; 2; 3]] in
  let bounds := ([0; 0; 0; 0; 0; 0], [1; 1; 1; 1; 1; 1]) in
  exists call,
    fit_call 0 frame (Some bounds) None "F277W" = Some call /\
    fit_call 0 frame None None "F277W" = Some call /\
    fit_func call = batman /\
    fit_bounds call <> bounds.
Proof.
  intros frame bounds.
  destruct (column_some frame 0) as [col Hcol]; [discriminate|].
  destruct (fit_setup_some 0 col (Some bounds) "F277W") as [fb Hfb]; [discriminate|].
  assert (Hcall : fit_call 0 frame (Some bounds) None "F277W"
                  = Some (mkFitCall (fst fb) (Py.arange (length col)) col (snd fb) None)).
  { unfold fit_call. rewrite Hcol. cbn [Py.bind]. rewrite Hfb. reflexivity. }
  eexists. split; [exact Hcall|]. split; [exact Hcall|].
  assert (Hlow : Py.lower "F277W" = "f277w"%string \/ (order2_cutoff (nrows frame) <= 0)%Z)
    by (left; reflexivity).
  destruct (fit_call_single_order _ _ _ _ _ _ Hlow Hcall) as (Hf & _).
  split; [exact Hf|].
  apply fit_call_inv in Hcall as (col' & _ & Hset & _).
  apply fit_setup_inv in Hset as (x1 & x2 & Hset).
  replace ((order2_cutoff (length col') <=? 0)%Z || String.eqb (Py.lower "F277W") "f277w")
    with true in Hset by (symmetry; apply orb_true_iff; right; reflexivity).
  destruct Hset as [_ ->].
  unfold bounds. intros H.
  apply (f_equal (fun b : Bounds => nth 1 (fst b) 0)) in H. discriminate H.
Qed.

(** ** Binary masks *)

Lemma isolate_signal_binary (curve_fit : FitCall -> option (list Q)) (idx : Z)
    (frame : Frame) (bounds : option Bounds) (sigma : Q) (err : option (list Q))
    (radius : PyVal) (filt : string) (ord1 ord2 : list Q) :
  isolate_signal curve_fit idx frame bounds sigma err radius filt = Some (ord1, ord2) ->
  (binary ord1 /\ length ord1 = nrows frame) /\
  (binary ord2 /\ length ord2 = nrows frame).
Proof.
  intros Hrun.
  apply isolate_signal_inv in Hrun
    as (col & call & fitted & lim1 & Hcol & _ & _ & _ & -> & H2).
  apply column_length in Hcol as <-.
  split; [split; [apply unmask_binary | apply unmask_mask_of]|].
  destruct (fit_func call).
  - subst ord2. split; [apply ones_like_binary|].
    unfold Py.ones_like. now rewrite length_map.
  - destruct H2 as (lim2 & _ & ->).
    split; [apply unmask_binary | apply unmask_mask_of].
Qed.

(** ** The thread pool *)

Lemma mapM_ext_in {A B : Type} (f g : A -> option B) (l : list A) :
  (forall a, In a l -> f a = g a) -> Py.mapM f l = Py.mapM g l.
Proof.
  induction l as [|a l IH]; intros H; simpl; [reflexivity|].
  rewrite (H a) by now left.
  rewrite IH by (intros; apply H; now right). reflexivity.
Qed.

Lemma mapM_map {A B C : Type} (h : A -> B) (f : B -> option C) (l : list A) :
  Py.mapM f (map h l) = Py.mapM (fun a => f (h a)) l.
Proof.
  induction l as [|a l IH]; simpl; [reflexivity|]. now rewrite IH.
Qed.

Lemma mapM_app {A B : Type} (f : A -> option B) (l1 l2 : list A) :
  Py.mapM f (l1 ++ l2) =
  match Py.mapM f l1, Py.mapM f l2 with
  | Some b1, Some b2 => Some (b1 ++ b2)
  | _, _ => None
  end.
Proof.
  induction l1 as [|a l1 IH]; simpl.
  - destruct (Py.mapM f l2); reflexivity.
  - destruct (f a); [|reflexivity]. rewrite IH.
    destruct (Py.mapM f l1), (Py.mapM f l2); reflexivity.
Qed.

Lemma mapM_concat {A B : Type} (f : A -> option B) (ls : list (list A)) :
  (parts <- Py.mapM (Py.mapM f) ls ;; Some (concat parts)) = Py.mapM f (concat ls).
Proof.
  induction ls as [|l ls IH]; simpl; [reflexivity|].
  rewrite mapM_app, <- IH.
  destruct (Py.mapM f l); [|reflexivity].
  destruct (Py.mapM (Py.mapM f) ls); reflexivity.
Qed.

Lemma mapM_seq_nth {A B : Type} (g : A -> option B) (l : list A) (d : A) :
  Py.mapM (fun i => g (nth i l d)) (seq 0 (length l)) = Py.mapM g l.
Proof.
  induction l as [|a l IH]; simpl; [reflexivity|].
  rewrite <- seq_shift, mapM_map. simpl. now rewrite IH.
Qed.

Lemma mapM_Forall {A B : Type} (P : B -> Prop) (f : A -> option B) (l : list A)
    (bs : list B) :
  (forall a b, f a = Some b -> P b) -> Py.mapM f l = Some bs -> Forall P bs.
Proof.
  intros Hf. revert bs. induction l as [|a l IH]; simpl; intros bs H.
  - injection H as <-. constructor.
  - destruct (f a) as [b|] eqn:E; [|discriminate].
    destruct (Py.mapM f l) as [bs'|]; [|discriminate].
    injection H as <-. constructor; eauto.
Qed.

Lemma mapM_length {A B : Type} (f : A -> option B) (l : list A) (bs : list B) :
  Py.mapM f l = Some bs -> length bs = length l.
Proof.
  revert bs. induction l as [|a l IH]; simpl; intros bs H.
  - now injection H as <-.
  - destruct (f a); [|discriminate].
    destruct (Py.mapM f l) as [bs'|]; [|discriminate].
    injection H as <-. simpl. f_equal. now apply IH.
Qed.

Lemma mapM_total {A B : Type} (f : A -> option B) (l : list A) :
  (forall a, In a l -> exists b, f a = Some b) -> exists bs, Py.mapM f l = Some bs.
Proof.
  induction l as [|a l IH]; intros H; simpl; [eauto|].
  destruct (H a) as [b ->]; [now left|].
  destruct IH as [bs ->]; [intros; apply H; now right|]. eauto.
Qed.

Lemma chunks_concat {A : Type} (size : nat) (it : list A) :
  (0 < size)%nat -> concat (Pool.chunks size it) = it.
Proof.
  intros Hs. funelim (Pool.chunks size it); try lia.
  - reflexivity.
  - simp chunks. cbn [concat]. rewrite H by lia. apply firstn_skipn.
Qed.

Lemma chunks_nil {A : Type} (size : nat) : Pool.chunks size (@nil A) = [].
Proof. destruct size; reflexivity. Qed.

Lemma chunksize_pos (workers len : nat) :
  (0 < workers)%nat -> (0 < len)%nat -> (0 < Pool.chunksize workers len)%nat.
Proof.
  intros Hw Hl. unfold Pool.chunksize.
  destruct (Nat.eqb_spec (len mod (workers * 4)) 0) as [E|]; [|lia].
  apply Nat.Div0.div_exact in E. nia.
Qed.

Lemma stored_scheduled {B : Type} (g : nat -> B) (i : nat) (order : list nat) :
  In i order -> Pool.stored i (map (fun j => (j, g j)) order) = Some (g i).
Proof.
  induction order as [|j order IH]; simpl; [tauto|].
  intros Hin. destruct (Nat.eqb_spec i j) as [->|Hne]; [reflexivity|].
  apply IH. destruct Hin; [congruence | assumption].
Qed.

(** Whatever the number of workers and the completion order, [map]
    returns what mapping in sequence returns. *)
Lemma pool_map_sequential {A B : Type} (workers : nat) (sched : Pool.Schedule)
    (func : A -> option B) (iterable : list A) :
  (0 < workers)%nat -> Pool.valid sched ->
  Pool.map workers sched func iterable = Py.mapM func iterable.
Proof.
  intros Hw Hs. unfold Pool.map.
  set (tasks := Pool.chunks _ iterable).
  rewrite (mapM_ext_in _ (fun i => Py.mapM func (nth i tasks []))).
  - rewrite mapM_seq_nth, mapM_concat. f_equal.
    subst tasks. destruct iterable as [|a l]; [now rewrite chunks_nil|].
    apply chunks_concat, chunksize_pos; simpl; lia.
  - intros i Hi.
    rewrite (stored_scheduled (fun j => Py.mapM func (nth j tasks []))).
    + reflexivity.
    + eapply Permutation_in; [symmetry; apply Hs | exact Hi].
Qed.

Lemma in_order_valid : Pool.valid in_order.
Proof. intros k. reflexivity. Qed.

Lemma reversed_valid : Pool.valid reversed.
Proof. intros k. symmetry. apply Permutation_rev. Qed.

Lemma pool_make_some (n_jobs : Z) :
  (1 <= n_jobs)%Z -> exists workers, Pool.make n_jobs = Some workers /\ (0 < workers)%nat.
Proof.
  intros H. unfold Pool.make.
  destruct (Z.ltb_spec n_jobs 1); [lia|]. eexists. split; [reflexivity | lia].
Qed.

Lemma stored_in {B : Type} (i : nat) (done : list (nat * B)) (b : B) :
  Pool.stored i done = Some b -> In (i, b) done.
Proof.
  induction done as [|[j c] done IH]; simpl; [discriminate|].
  destruct (Nat.eqb_spec i j) as [->|].
  - intros [= ->]. now left.
  - intros H. right. now apply IH.
Qed.

(** Every entry of the result of [map] is a value returned by a call of
    the function, whatever the completion order. *)
Lemma pool_map_outputs {A B : Type} (P : B -> Prop) (workers : nat)
    (sched : Pool.Schedule) (func : A -> option B) (iterable : list A) (bs : list B) :
  (forall a b, func a = Some b -> P b) ->
  Pool.map workers sched func iterable = Some bs -> Forall P bs.
Proof.
  intros Hf. unfold Pool.map.
  set (tasks := Pool.chunks _ iterable).
  set (done := map _ (sched _)).
  intros H. bind_inv H. injection H as <-.
  apply Forall_concat.
  eapply mapM_Forall; [|eassumption].
  intros i part Hpart. cbn beta in Hpart.
  destruct (Pool.stored i done) as [r|] eqn:Est; [|discriminate].
  cbn [Py.bind] in Hpart. subst r.
  apply stored_in in Est. subst done.
  apply in_map_iff in Est as (j & [= _ Hj] & _).
  eapply mapM_Forall; eassumption.
Qed.

(** ** The order mask builder *)

Lemma update_Forall {A : Type} (P : A -> Prop) (l : list A) (n : nat) (v : A) :
  Forall P l -> P v -> Forall P (Py.update l n v).
Proof.
  intros Hl Hv. revert n. induction Hl as [|a l Ha Hl IH]; intros n; simpl.
  - constructor.
  - destruct n; constructor; auto.
Qed.

Lemma zeros_like_binary (frame : Frame) : binary_frame (zeros_like frame).
Proof.
  unfold binary_frame, zeros_like. simpl.
  apply Forall_map, Forall_forall. intros r _.
  apply Forall_map, Forall_forall. auto.
Qed.

Lemma set_column_binary (a a' : Frame) (n : nat) (v : list Q) :
  binary_frame a -> binary v -> set_column a n v = Some a' -> binary_frame a'.
Proof.
  unfold set_column, binary_frame. intros Ha Hv H.
  destruct (_ && _); [|discriminate]. injection H as <-. simpl.
  apply Forall_map, Forall_forall. intros [r x] Hin. simpl.
  apply update_Forall.
  - apply in_combine_l in Hin. rewrite Forall_forall in Ha. exact (Ha r Hin).
  - apply in_combine_r in Hin. unfold binary in Hv. rewrite Forall_forall in Hv.
    exact (Hv x Hin).
Qed.

Lemma set_column_shape (a a' : Frame) (n : nat) (v : list Q) :
  set_column a n v = Some a' -> ncols a' = ncols a /\ nrows a' = nrows a.
Proof.
  unfold set_column. intros H.
  destruct (_ <? _)%nat; [|discriminate].
  destruct (Nat.eqb_spec (length v) (nrows a)) as [E|]; [|discriminate].
  injection H as <-. unfold nrows in *. simpl.
  rewrite length_map, length_combine. split; [reflexivity | lia].
Qed.

Lemma set_column_some (a : Frame) (n : nat) (v : list Q) :
  (n < ncols a)%nat -> length v = nrows a -> exists a', set_column a n v = Some a'.
Proof.
  intros Hn Hv. unfold set_column.
  destruct (Nat.ltb_spec n (ncols a)); [|lia].
  destruct (Nat.eqb_spec (length v) (nrows a)); [|lia].
  simpl. eauto.
Qed.

Lemma set_masks_binary (masks : list (list Q * list Q)) (n : nat)
    (order1 order2 order1' order2' : Frame) :
  Forall (fun m => binary (fst m) /\ binary (snd m)) masks ->
  binary_frame order1 -> binary_frame order2 ->
  set_masks n masks order1 order2 = Some (order1', order2') ->
  binary_frame order1' /\ binary_frame order2'.
Proof.
  intros Hm. revert n order1 order2.
  induction Hm as [|[ord1 ord2] masks [Hb1 Hb2] Hm IH]; intros n order1 order2 H1 H2 H.
  - simpl in H. injection H as <- <-. auto.
  - simpl in H, Hb1, Hb2. do 2 bind_inv H.
    match goal with
    | E1 : set_column order1 n ord1 = Some _, E2 : set_column order2 n ord2 = Some _ |- _ =>
        apply (IH _ _ _ (set_column_binary _ _ _ _ H1 Hb1 E1)
                        (set_column_binary _ _ _ _ H2 Hb2 E2) H)
    end.
Qed.

Lemma set_masks_some (height : nat) (masks : list (list Q * list Q)) (n : nat)
    (order1 order2 : Frame) :
  Forall (fun m => length (fst m) = height /\ length (snd m) = height) masks ->
  (n + length masks <= ncols order1)%nat -> (n + length masks <= ncols order2)%nat ->
  nrows order1 = height -> nrows order2 = height ->
  exists order1' order2', set_masks n masks order1 order2 = Some (order1', order2').
Proof.
  intros Hm. revert n order1 order2.
  induction Hm as [|[ord1 ord2] masks [Hl1 Hl2] Hm IH];
    intros n order1 order2 Hc1 Hc2 Hr1 Hr2; simpl in *; [eauto|].
  destruct (set_column_some order1 n ord1) as [a1 E1]; [lia | congruence |].
  destruct (set_column_some order2 n ord2) as [a2 E2]; [lia | congruence |].
  rewrite E1, E2. cbn [Py.bind].
  apply set_column_shape in E1 as [? ?], E2 as [? ?].
  apply IH; lia || congruence.
Qed.

Lemma firstn_Forall {A : Type} (P : A -> Prop) (k : nat) (l : list A) :
  Forall P l -> Forall P (firstn k l).
Proof.
  intros H. revert k. induction H as [|a l Ha Hl IH]; intros [|k]; simpl;
    constructor; auto.
Qed.

Lemma trim_binary (subarray : string) (order1 order2 : Frame) :
  binary_frame order1 -> binary_frame order2 ->
  binary_frame (fst (trim subarray order1 order2)) /\
  binary_frame (snd (trim subarray order1 order2)).
Proof.
  intros H1 H2. unfold trim.
  destruct (String.eqb subarray "SUBSTRIP96"); simpl; [|auto].
  split; apply firstn_Forall; assumption.
Qed.

(** One level of the builder with [save=True]: it does not call itself. *)
Lemma order_masks_save (curve_fit : FitCall -> option (list Q)) (sched : Pool.Schedule)
    (fuel : nat) (w : World) (frame : Frame) (subarray : string) (n_jobs : Z)
    (plot : bool) (kwargs : Kwargs) :
  order_masks curve_fit sched (S fuel) w frame subarray n_jobs plot true kwargs
  = order_masks curve_fit sched 1 w frame subarray n_jobs plot true kwargs.
Proof. reflexivity. Qed.

(** With [save=True] the builder returns the assembled pair, after one
    pass over the 2048 columns, as soon as the frame has that many
    columns, the fit converges and there is at least one worker. *)
Lemma order_masks_generates (curve_fit : FitCall -> option (list Q))
    (sched : Pool.Schedule) (fuel : nat) (w : World) (frame : Frame)
    (subarray : string) (n_jobs : Z) (plot : bool) (kwargs : Kwargs) :
  fit_converges curve_fit -> Pool.valid sched -> (1 <= n_jobs)%Z ->
  (2048 <= ncols frame)%nat ->
  exists order1 order2,
    order_masks curve_fit sched (S fuel) w frame subarray n_jobs plot true kwargs
    = Some (Returned (Some (trim subarray order1 order2)),
            save_order_masks (print w "Coffee time! This takes about 3 minutes...")
                             (order1, order2)).
Proof.
  intros Hfit Hs Hn Hc. cbn [order_masks].
  destruct (pool_make_some n_jobs Hn) as (workers & -> & Hw).
  rewrite pool_map_sequential by assumption.
  set (func := fun idx => isolate_signal curve_fit idx frame _ _ _ _ _).
  destruct (mapM_total func (Py.arange 2048)) as [masks Hmasks].
  { intros idx Hin. unfold Py.arange in Hin.
    apply in_map_iff in Hin as (j & <- & Hj). apply in_seq in Hj.
    destruct (isolate_signal_returns curve_fit (Z.of_nat j) frame (kw_bounds kwargs)
                (kw_sigma kwargs) (kw_err kwargs) (kw_radius kwargs) (kw_filt kwargs))
      as (o1 & o2 & Ho); try assumption.
    - rewrite index_nonneg by lia. discriminate.
    - rewrite index_nonneg by lia. discriminate.
    - exists (o1, o2). exact Ho. }
  rewrite Hmasks.
  destruct (set_masks_some (nrows frame) masks 0 (zeros_like frame) (zeros_like frame))
    as (order1 & order2 & Hset).
  - eapply mapM_Forall; [|exact Hmasks].
    intros idx [o1 o2] Ho. apply isolate_signal_binary in Ho. simpl. tauto.
  - apply mapM_length in Hmasks. rewrite Hmasks, arange_length. simpl. lia.
  - apply mapM_length in Hmasks. rewrite Hmasks, arange_length. simpl. lia.
  - unfold nrows, zeros_like. simpl. now rewrite length_map.
  - unfold nrows, zeros_like. simpl. now rewrite length_map.
  - rewrite Hset. eauto.
Qed.

(** C7.  With the same frame, files and fit inputs, the builder ends the
    same way, with the same pair of masks and the same saved file, for
    any two numbers of workers (at least one each) and any two orders in
    which the workers complete their chunks: the results of the columns
    are stored and read by index. *)
Theorem order_masks_independent_of_workers (curve_fit : FitCall -> option (list Q))
    (sched1 sched2 : Pool.Schedule) (n_jobs1 n_jobs2 : Z) (fuel : nat) (w : World)
    (frame : Frame) (subarray : string) (plot : bool) (save : bool) (kwargs : Kwargs)
    (Hjobs1 : (1 <= n_jobs1)%Z) (Hjobs2 : (1 <= n_jobs2)%Z)
    (Hsched1 : Pool.valid sched1) (Hsched2 : Pool.valid sched2) :
  order_masks curve_fit sched1 fuel w frame subarray n_jobs1 plot save kwargs
  = order_masks curve_fit sched2 fuel w frame subarray n_jobs2 plot save kwargs.
Proof.
  revert w subarray n_jobs1 n_jobs2 save kwargs Hjobs1 Hjobs2.
  induction fuel as [|fuel IH]; intros w subarray n1 n2 save kwargs H1 H2;
    [reflexivity|].
  cbn [order_masks]. destruct save.
  - destruct (pool_make_some n1 H1) as (k1 & -> & Hk1).
    destruct (pool_make_some n2 H2) as (k2 & -> & Hk2).
    now rewrite !pool_map_sequential by assumption.
  - destruct (order_masks_npy w) as [[order1 order2]|]; [reflexivity|].
    rewrite (IH _ "SUBSTRIP256"%string 4%Z 4%Z true no_kwargs) by lia.
    reflexivity.
Qed.

Lemma order_masks_independent_of_workers_witness :
  order_masks lower_bound_fit in_order 2 empty_world two_row_frame "SUBSTRIP256" 1
              false true no_kwargs
  = order_masks lower_bound_fit reversed 2 empty_world two_row_frame "SUBSTRIP256" 8
                false true no_kwargs.
Proof.
  apply (order_masks_independent_of_workers lower_bound_fit in_order reversed 1 8 2
           empty_world two_row_frame "SUBSTRIP256" false true no_kwargs).
  - lia.
  - lia.
  - exact in_order_valid.
  - exact reversed_valid.
Defined.

(** On that input the builder does return a pair of masks. *)
Lemma order_masks_two_row_frame (sched : Pool.Schedule) (n_jobs : Z) :
  Pool.valid sched -> (1 <= n_jobs)%Z ->
  exists order1 order2,
    order_masks lower_bound_fit sched 2 empty_world two_row_frame "SUBSTRIP256" n_jobs
                false true no_kwargs
    = Some (Returned (Some (order1, order2)),
            save_order_masks
              (print empty_world "Coffee time! This takes about 3 minutes...")
              (order1, order2)).
Proof.
  intros Hs Hn.
  destruct (order_masks_generates lower_bound_fit sched 1 empty_world two_row_frame
              "SUBSTRIP256" n_jobs false no_kwargs lower_bound_fit_converges Hs Hn)
    as (order1 & order2 & H).
  - simpl. lia.
  - exists order1, order2. exact H.
Qed.

(** With [save=True] the masks that are returned and saved are binary,
    whatever the mask file held before. *)
Lemma order_masks_save_binary (curve_fit : FitCall -> option (list Q))
    (sched : Pool.Schedule) (fuel : nat) (w w' : World) (frame : Frame)
    (subarray : string) (n_jobs : Z) (plot : bool) (kwargs : Kwargs)
    (order1 order2 : Frame) :
  order_masks curve_fit sched fuel w frame subarray n_jobs plot true kwargs
  = Some (Returned (Some (order1, order2)), w') ->
  binary_frame order1 /\ binary_frame order2 /\ cache_binary w'.
Proof.
  destruct fuel as [|fuel]; [discriminate|]. cbn [order_masks]. intros H.
  destruct (Pool.make n_jobs) as [workers|]; [|discriminate].
  destruct (Pool.map workers sched _ (Py.arange 2048)) as [masks|] eqn:Hmap;
    [|discriminate].
  destruct (set_masks 0 masks _ _) as [[a1 a2]|] eqn:Hset; [|discriminate].
  assert (Hb : binary_frame a1 /\ binary_frame a2).
  { eapply set_masks_binary; [| | |exact Hset]; try apply zeros_like_binary.
    eapply pool_map_outputs; [|exact Hmap].
    intros idx [o1 o2] Ho. apply isolate_signal_binary in Ho. simpl. tauto. }
  destruct Hb as [Hb1 Hb2]. pose proof (trim_binary subarray _ _ Hb1 Hb2) as Ht.
  destruct (trim subarray a1 a2) as [t1 t2]. injection H as <- <- <-.
  destruct Ht as [Ht1 Ht2]. repeat split; assumption.
Qed.

(** The builder keeps the mask file binary and returns binary masks. *)
Lemma order_masks_binary (curve_fit : FitCall -> option (list Q))
    (sched : Pool.Schedule) (fuel : nat) (w w' : World) (frame : Frame)
    (subarray : string) (n_jobs : Z) (plot : bool) (save : bool) (kwargs : Kwargs)
    (out : Outcome (option (Frame * Frame))) :
  cache_binary w ->
  order_masks curve_fit sched fuel w frame subarray n_jobs plot save kwargs
  = Some (out, w') ->
  cache_binary w' /\
  match out with
  | Returned (Some (order1, order2)) => binary_frame order1 /\ binary_frame order2
  | _ => True
  end.
Proof.
  revert w w' subarray n_jobs save kwargs out.
  induction fuel as [|fuel IH]; intros w w' subarray n_jobs save kwargs out Hw H;
    [discriminate|].
  cbn [order_masks] in H. destruct save.
  - destruct (Pool.make n_jobs) as [workers|];
      [|injection H as <- <-; split; [exact Hw | exact I]].
    destruct (Pool.map workers sched _ (Py.arange 2048)) as [masks|] eqn:Hmap;
      [|injection H as <- <-; split; [exact Hw | exact I]].
    destruct (set_masks 0 masks _ _) as [[order1 order2]|] eqn:Hset;
      [|injection H as <- <-; split; [exact Hw | exact I]].
    injection H as <- <-.
    assert (Hb : binary_frame order1 /\ binary_frame order2).
    { eapply set_masks_binary; [| | |exact Hset]; try apply zeros_like_binary.
      eapply pool_map_outputs; [|exact Hmap].
      intros idx [o1 o2] Ho. apply isolate_signal_binary in Ho. simpl. tauto. }
    split; [exact Hb|].
    destruct Hb as [Hb1 Hb2]. pose proof (trim_binary subarray _ _ Hb1 Hb2) as Ht.
    destruct (trim subarray order1 order2). exact Ht.
  - unfold cache_binary in Hw.
    destruct (order_masks_npy w) as [[order1 order2]|] eqn:Hnpy.
    + injection H as <- <-. split; [unfold cache_binary; now rewrite Hnpy|].
      destruct Hw as [Hb1 Hb2]. pose proof (trim_binary subarray _ _ Hb1 Hb2) as Ht.
      destruct (trim subarray order1 order2). exact Ht.
    + destruct (order_masks curve_fit sched fuel _ frame _ _ plot true no_kwargs)
        as [[out1 w1]|] eqn:Hrec; [|discriminate].
      apply IH in Hrec as [Hc _]; [|unfold cache_binary; simpl; now rewrite Hnpy].
      destruct out1 as [|[m|]]; injection H as <- <-; split; auto.
Qed.

(** C10.  Every entry of the two column masks [isolate_signal] returns
    is 0 or 1.  So is every entry of the two masks the builder returns:
    always when it assembles them ([save=True]), and when it loads them
    provided the mask file holds such masks, as it does once the builder
    has written it (the file it leaves is binary again). *)
Theorem masks_are_binary (curve_fit : FitCall -> option (list Q)) :
  (forall idx frame bounds sigma err radius filt ord1 ord2,
      isolate_signal curve_fit idx frame bounds sigma err radius filt
      = Some (ord1, ord2) ->
      binary ord1 /\ binary ord2) /\
  (forall sched fuel w w' frame subarray n_jobs plot save kwargs order1 order2,
      save = true \/ cache_binary w ->
      order_masks curve_fit sched fuel w frame subarray n_jobs plot save kwargs
      = Some (Returned (Some (order1, order2)), w') ->
      binary_frame order1 /\ binary_frame order2 /\ cache_binary w').
Proof.
  split.
  - intros idx frame bounds sigma err radius filt ord1 ord2 Ho.
    apply isolate_signal_binary in Ho. tauto.
  - intros sched fuel w w' frame subarray n_jobs plot save kwargs order1 order2
           [-> | Hc] Hrun.
    + eapply order_masks_save_binary. exact Hrun.
    + destruct (order_masks_binary _ _ _ _ _ _ _ _ _ _ _ _ Hc Hrun) as (Hc' & H1 & H2).
      auto.
Qed.

Lemma masks_are_binary_witness :
  (binary [1; 0; 1; 1] /\ binary [1; 1; 0; 1]) /\
  (binary_frame (mkFrame 2 [[0; 1]; [1; 1]]) /\
   binary_frame (mkFrame 2 [[1; 1]; [1; 0]]) /\
   cache_binary (mkWorld (Some (mkFrame 2 [[0; 1]; [1; 1]], mkFrame 2 [[1; 1]; [1; 0]]))
                         None (fun _ => None) (fun _ => None) [])).
Proof.
  split.
  - apply (proj1 (masks_are_binary
                    (fun _ => Some [2; 1; 1; 1; 1; 1; 1; 1; 1; 1; 1; 1]))
             0%Z (mkFrame 3 [[1; 2; 3]; [1; 2; 3]; [1; 2; 3]; [1; 2; 3]])
             None (1 # 2) None (PyInt 1) "CLEAR"%string).
    reflexivity.
  - apply (proj2 (masks_are_binary lower_bound_fit) in_order 1%nat
             (mkWorld (Some (mkFrame 2 [[0; 1]; [1; 1]], mkFrame 2 [[1; 1]; [1; 0]]))
                      None (fun _ => None) (fun _ => None) [])
             _ two_row_frame "SUBSTRIP256"%string 4%Z false false no_kwargs).
    + right. unfold cache_binary, binary_frame, binary. simpl.
      repeat match goal with
             | |- _ /\ _ => split
             | |- Forall _ (_ :: _) => apply Forall_cons
             | |- Forall _ [] => apply Forall_nil
             end; auto.
    + reflexivity.
Defined.

(** The pool on a small input: ten items, two workers, chunks of two
    completed last first. *)
Example pool_map_small :
  Pool.map 2 reversed (fun x => if (x =? 7)%Z then None else Some (x + 1)%Z)
           [1; 2; 3; 4; 5; 6; 8; 9; 10; 11]%Z
  = Some [2; 3; 4; 5; 6; 7; 9; 10; 11; 12]%Z.
Proof. reflexivity. Qed.

(** Two levels are all the builder ever uses: the self-call is made with
    [save=True], which does not call again. *)
Lemma order_masks_depth (curve_fit : FitCall -> option (list Q)) (sched : Pool.Schedule)
    (fuel : nat) (w : World) (frame : Frame) (subarray : string) (n_jobs : Z)
    (plot : bool) (save : bool) (kwargs : Kwargs) :
  order_masks curve_fit sched (S (S fuel)) w frame subarray n_jobs plot save kwargs
  = order_masks curve_fit sched 2 w frame subarray n_jobs plot save kwargs.
Proof.
  destruct save; [reflexivity|].
  cbn [order_masks]. destruct (order_masks_npy w) as [[order1 order2]|]; reflexivity.
Qed.

(** Without a mask file and with [save=False] the builder never returns
    masks. *)
Lemma order_masks_miss_no_masks (curve_fit : FitCall -> option (list Q))
    (sched : Pool.Schedule) (fuel : nat) (w w' : World) (frame : Frame)
    (subarray : string) (n_jobs : Z) (plot : bool) (kwargs : Kwargs)
    (m : Frame * Frame) :
  order_masks_npy w = None ->
  order_masks curve_fit sched fuel w frame subarray n_jobs plot false kwargs
  <> Some (Returned (Some m), w').
Proof.
  intros Hnpy. destruct fuel as [|fuel]; [discriminate|].
  cbn [order_masks]. rewrite Hnpy.
  destruct (order_masks curve_fit sched fuel _ frame _ _ plot true no_kwargs)
    as [[[|[m'|]] w1]|]; discriminate.
Qed.

(** Without a mask file and with [save=False], on a frame the builder
    can process: one pass over the columns is made (one progress line is
    printed, the file is written), and the call returns [None]. *)
Lemma order_masks_miss (curve_fit : FitCall -> option (list Q))
    (sched : Pool.Schedule) (fuel : nat) (w : World) (frame : Frame)
    (subarray : string) (n_jobs : Z) (plot : bool) (kwargs : Kwargs) :
  order_masks_npy w = None ->
  fit_converges curve_fit -> Pool.valid sched -> (2048 <= ncols frame)%nat ->
  exists order1 order2,
    order_masks curve_fit sched (S (S fuel)) w frame subarray n_jobs plot false kwargs
    = Some (Returned None,
            save_order_masks
              (print (print w "No order mask file. Generating one now...")
                     "Coffee time! This takes about 3 minutes...")
              (order1, order2)).
Proof.
  intros Hnpy Hfit Hs Hc.
  destruct (order_masks_generates curve_fit sched fuel
              (print w "No order mask file. Generating one now...") frame
              "SUBSTRIP256" 4 plot no_kwargs Hfit Hs) as (order1 & order2 & H);
    [lia | assumption |].
  exists order1, order2.
  change (order_masks curve_fit sched (S (S fuel)) w frame subarray n_jobs plot false kwargs)
    with (match order_masks_npy w with
          | Some (order1, order2) => Some (Returned (Some (trim subarray order1 order2)), w)
          | None =>
              match order_masks curve_fit sched (S fuel)
                      (print w "No order mask file. Generating one now...") frame
                      "SUBSTRIP256" 4 plot true no_kwargs with
              | None => None
              | Some (Raised, w') => Some (Raised, w')
              | Some (Returned None, w') => Some (Raised, w')
              | Some (Returned (Some _), w') => Some (Returned None, w')
              end
          end).
  rewrite Hnpy, H. reflexivity.
Qed.

(** C3.  The cache-miss path does not hand the masks back.  On a frame
    of two rows and 2048 columns, with no mask file and [save=False],
    the builder makes exactly one pass (one progress line, the file
    written once with the assembled pair) and then returns [None] to
    its caller, not the pair. *)
Theorem cache_miss_returns_none :
  exists order1 order2,
    order_masks lower_bound_fit in_order 2 empty_world two_row_frame "SUBSTRIP256" 4
                false false no_kwargs
    = Some (Returned None,
            mkWorld (Some (order1, order2)) None (fun _ => None) (fun _ => None)
                    [ "No order mask file. Generating one now...";
                      "Coffee time! This takes about 3 minutes..." ]%string).
Proof.
  destruct (order_masks_miss lower_bound_fit in_order 0 empty_world two_row_frame
              "SUBSTRIP256" 4 false no_kwargs eq_refl lower_bound_fit_converges
              in_order_valid) as (order1 & order2 & H).
  - simpl. lia.
  - exists order1, order2. exact H.
Qed.

(** ** The wavelength-bin indexer *)

Lemma in_combine_seq {A : Type} (l : list A) (s i : nat) (a : A) :
  In (i, a) (combine (seq s (length l)) l)
  <-> (s <= i)%nat /\ nth_error l (i - s) = Some a.
Proof.
  revert s. induction l as [|b l IH]; intros s; simpl.
  - split; [tauto|]. intros [_ H]. destruct (i - s)%nat; discriminate.
  - rewrite IH. split.
    + intros [[= <- <-] | [Hs Hn]].
      * rewrite Nat.sub_diag. auto.
      * split; [lia|]. replace (i - s)%nat with (S (i - S s)) by lia. exact Hn.
    + intros [Hs Hn]. destruct (Nat.eq_dec s i) as [<-|Hne].
      * rewrite Nat.sub_diag in Hn. injection Hn as <-. now left.
      * right. split; [lia|].
        replace (i - s)%nat with (S (i - S s)) in Hn by lia. exact Hn.
Qed.

Lemma in_enumerate {A : Type} (l : list A) (i : nat) (a : A) :
  In (i, a) (enumerate l) <-> nth_error l i = Some a.
Proof.
  unfold enumerate. rewrite in_combine_seq, Nat.sub_0_r. split; [tauto|].
  split; [lia | assumption].
Qed.

(** A bin holds exactly the pixels whose wavelength lies in [dw0, dw1). *)
Lemma where_between_spec (wave_map : Frame) (dw0 dw1 : Q) (i j : nat) :
  In (i, j) (where_between wave_map dw0 dw1)
  <-> exists r v,
        nth_error (rows wave_map) i = Some r /\ nth_error r j = Some v /\
        dw0 <= v /\ v < dw1.
Proof.
  unfold where_between. rewrite in_flat_map. split.
  - intros ([i' r] & Hr & Hin). apply in_enumerate in Hr.
    apply in_flat_map in Hin as ([j' v] & Hv & Hin). apply in_enumerate in Hv.
    simpl in Hin.
    destruct (Qle_bool dw0 v && Py.ltb v dw1) eqn:E; [|contradiction].
    destruct Hin as [[= <- <-] | []].
    apply andb_prop in E as [E1 E2]. apply Qle_bool_iff in E1. apply ltb_lt in E2.
    exists r, v. auto.
  - intros (r & v & Hr & Hv & H0 & H1).
    exists (i, r). split; [now apply in_enumerate|].
    apply in_flat_map. exists (j, v). split; [now apply in_enumerate|]. simpl.
    apply Qle_bool_iff in H0. apply ltb_lt in H1. rewrite H0, H1. now left.
Qed.

(** The upper edge is as specified for every sample, and the lower edge
    for every sample but the first. *)
Lemma bin_edges_upper (waves : list Q) (n : nat) (w : Q) :
  (n < length waves)%nat ->
  snd (bin_edges waves n w)
  = Py.mean2 (if (S n <? length waves)%nat then nth (S n) waves 0 else 10) w.
Proof.
  intros Hn. unfold bin_edges. cbn [snd].
  destruct (Nat.ltb_spec (S n) (length waves)) as [Hlt|Hge].
  - replace (Z.of_nat n + 1)%Z with (Z.of_nat (S n)) by lia.
    rewrite getitem_nonneg by assumption.
    now rewrite (nth_error_nth' waves 0 Hlt).
  - unfold Py.getitem, Py.index.
    destruct (Z.ltb_spec (Z.of_nat n + 1) (Z.of_nat (length waves))); [lia|].
    destruct (Z.ltb_spec (Z.of_nat n + 1) 0); [lia|].
    now rewrite !andb_false_r.
Qed.

Lemma bin_edges_lower (waves : list Q) (n : nat) (w : Q) :
  (S n < length waves)%nat ->
  fst (bin_edges waves (S n) w) = Py.mean2 (nth n waves 0) w.
Proof.
  intros Hn. unfold bin_edges. cbn [fst].
  replace (Z.of_nat (S n) - 1)%Z with (Z.of_nat n) by lia.
  rewrite getitem_nonneg by lia.
  rewrite (nth_error_nth' waves 0) by lia. reflexivity.
Qed.

(** For the first sample the index [n-1 = -1] is valid and reads the
    last sample: the sentinel 0.1 is never used. *)
Lemma bin_edges_first (waves : list Q) (w : Q) :
  waves <> [] -> fst (bin_edges waves 0 w) = Py.mean2 (last waves 0) w.
Proof.
  intros Hne. unfold bin_edges. cbn [fst].
  destruct (exists_last Hne) as (l & a & ->).
  rewrite last_last. unfold Py.getitem, Py.index.
  rewrite length_app. simpl length.
  replace (0 <=? Z.of_nat 0 - 1)%Z with false by reflexivity. cbn [andb].
  destruct (Z.leb_spec (- Z.of_nat (length l + 1)) (Z.of_nat 0 - 1)); [|lia].
  cbn [andb Z.ltb Z.compare Z.of_nat Z.sub Z.add Z.opp Z.pos_sub].
  replace (Z.to_nat (Z.of_nat (length l + 1) + -1)) with (length l) by lia.
  rewrite nth_error_app2, Nat.sub_diag by lia. reflexivity.
Qed.

(** C5.  The lower edge of the first bin is not the midpoint with the
    sentinel 0.1.  For the samples 1, 2, 3 the code takes the last
    sample, 3, as the previous one of the first: the first bin is
    [2, 1.5) where the specified bin is [0.55, 1.5), and it is empty
    although the pixel of wavelength 1 belongs to the specified bin.
    The other two bins are as specified. *)
Theorem first_bin_uses_last_sample :
  let waves := [1; 2; 3] in
  let wave_map := mkFrame 3 [[1; 2; 3]] in
  fst (bin_edges waves 0 1) == 2 /\
  fst (spec_bin_edges waves 0) == 0.55 /\
  snd (bin_edges waves 0 1) == snd (spec_bin_edges waves 0) /\
  order_bins [waves; [1; 1; 1]] wave_map = Some [[]; [(0, 1)]; [(0, 2)]]%nat /\
  where_between wave_map (fst (spec_bin_edges waves 0)) (snd (spec_bin_edges waves 0))
  = [(0, 0)]%nat.
Proof.
  repeat split; reflexivity.
Qed.

(** C6.  A missing throughput file shifts the orders.  With the files
    of orders 1, 2, 3 the three bin lists are computed from (table 1,
    map 1), (table 2, map 2), (table 3, map 3).  Without the file of
    order 1 no error is raised, but the list that comes back empty is
    the third one, and the first two are computed from (table 2, map 1)
    and (table 3, map 2): they differ from the lists of orders 2 and 3
    computed when all files are present. *)
Theorem missing_throughput_shifts_orders :
  option_map fst (wavelength_bins 2 calibrated_world true "SUBSTRIP256" None)
  = Some (Returned [ [[]; [(1, 0)]; [(2, 0)]];
                     [[]; [(1, 0)]; [(2, 0)]];
                     [[]; [(1, 0)]; [(2, 0)]] ]%nat) /\
  option_map fst (wavelength_bins 2 world_without_order1 true "SUBSTRIP256" None)
  = Some (Returned [ [[]; [(2, 0)]; []];
                     [[]; [(2, 0)]; []];
                     [] ]%nat) /\
  order_bins [[2; 3; 4]; [1; 1; 1]] (swapaxes (mkFrame 3 [[1; 2; 3]]))
  = Some [[]; [(2, 0)]; []]%nat /\
  order_bins [[3; 4; 5]; [1; 1; 1]] (swapaxes (mkFrame 3 [[2; 3; 4]]))
  = Some [[]; [(2, 0)]; []]%nat.
Proof.
  repeat split; reflexivity.
Qed.

(** * Further properties of the code *)

(** ** Orders and column indices *)

Lemma index_in_range (len : nat) (i : Z) : Py.index len i <> None <-> in_range len i.
Proof.
  unfold Py.index, in_range.
  destruct (Z.leb_spec 0 i), (Z.ltb_spec i (Z.of_nat len)),
    (Z.leb_spec (- Z.of_nat len) i), (Z.ltb_spec i 0); simpl;
    split; intros Hr; try lia; try discriminate; try congruence.
Qed.

Lemma index_none (len : nat) (i : Z) : Py.index len i = None <-> ~ in_range len i.
Proof.
  rewrite <- index_in_range. destruct (Py.index len i); split; try congruence.
  intros H. exfalso. apply H. discriminate.
Qed.

(** X1.  [trace_polynomial] raises exactly for the orders outside
    [-1, 2]: Python's negative indexing makes order 0 an alias of
    order 2 and order -1 an alias of order 1. *)
Theorem trace_polynomial_orders :
  (forall order, trace_polynomial order = None <-> (order < -1 \/ 2 < order)%Z) /\
  trace_polynomial 0 = trace_polynomial 2 /\
  trace_polynomial (-1) = trace_polynomial 1.
Proof.
  split; [|split; reflexivity].
  intros order. split.
  - intros H.
    destruct (Z_lt_le_dec order (-1)) as [|H1]; [now left|].
    destruct (Z_lt_le_dec 2 order) as [|H2]; [now right|].
    assert (Hc : order = (-1)%Z \/ order = 0%Z \/ order = 1%Z \/ order = 2%Z) by lia.
    destruct Hc as [-> | [-> | [-> | ->]]]; discriminate H.
  - intros H. unfold trace_polynomial, Py.getitem.
    replace (Py.index (length coeffs) (order - 1)) with (@None nat); [reflexivity|].
    symmetry. apply index_none. unfold in_range. simpl. lia.
Qed.

Lemma fit_setup_none (idx : Z) (col : list Q) (bounds : option Bounds) (filt : string) :
  Py.index 2048 idx = None -> fit_setup idx col bounds filt = None.
Proof.
  intros Hi. unfold fit_setup.
  rewrite (trace_polynomial_rows 1) by auto. cbn [Py.bind].
  unfold Py.getitem at 1. rewrite length_map, arange_length, Hi. reflexivity.
Qed.

(** X2.  With a fit that converges, [isolate_signal] returns exactly
    when [idx] is a valid index both of the frame's columns and of the
    2048-entry trace; outside (negative indices count from the end) it
    raises. *)
Theorem isolate_signal_index_range (curve_fit : FitCall -> option (list Q)) (idx : Z)
    (frame : Frame) (bounds : option Bounds) (sigma : Q) (err : option (list Q))
    (radius : PyVal) (filt : string)
    (Hfit : fit_converges curve_fit) :
  isolate_signal curve_fit idx frame bounds sigma err radius filt <> None
  <-> in_range (ncols frame) idx /\ in_range 2048 idx.
Proof.
  rewrite <- !index_in_range. split.
  - intros H. split; intros Hn; apply H; unfold isolate_signal, fit_call, column.
    + rewrite Hn. reflexivity.
    + destruct (Py.index (ncols frame) idx); [|reflexivity]. cbn [Py.bind].
      rewrite fit_setup_none by assumption. reflexivity.
  - intros [Hc Hi].
    destruct (isolate_signal_returns curve_fit idx frame bounds sigma err radius filt
                Hfit Hc Hi) as (o1 & o2 & ->).
    discriminate.
Qed.

Lemma isolate_signal_index_range_witness :
  isolate_signal lower_bound_fit (-1) small_frame None 3 None PyNone "CLEAR" <> None
  <-> in_range (ncols small_frame) (-1) /\ in_range 2048 (-1).
Proof.
  apply (isolate_signal_index_range lower_bound_fit (-1) small_frame None 3 None
           PyNone "CLEAR").
  exact lower_bound_fit_converges.
Defined.

(** X3.  The single-order model is fitted exactly when the column is at
    or beyond the order-2 cutoff or the filter, in any letter case, is
    f277w; otherwise the two-order model is.  The bounds have one entry
    per parameter of the chosen model, the abscissae are the row numbers
    and [err] is passed on as the fit's [sigma]. *)
Theorem fit_model_choice (idx : Z) (frame : Frame) (bounds : option Bounds)
    (err : option (list Q)) (filt : string) (call : FitCall)
    (Hcall : fit_call idx frame bounds err filt = Some call) :
  (fit_func call = batman
   <-> (order2_cutoff (nrows frame) <= idx)%Z \/ Py.lower filt = "f277w"%string) /\
  length (fst (fit_bounds call)) = n_params (fit_func call) /\
  length (snd (fit_bounds call)) = n_params (fit_func call) /\
  fit_x call = Py.arange (nrows frame) /\
  fit_sigma call = err.
Proof.
  apply fit_call_inv in Hcall as (col & Hcol & Hset & Hx & _ & Hs).
  apply column_length in Hcol. rewrite Hcol in *.
  apply fit_setup_inv in Hset as (x1 & x2 & Hset). rewrite Hcol in Hset.
  destruct (Z.leb_spec (order2_cutoff (nrows frame)) idx) as [Hle|Hgt];
    destruct (String.eqb_spec (Py.lower filt) "f277w") as [He|Hne];
    cbn [orb] in Hset; destruct Hset as [-> ->];
    (split; [|repeat split; assumption]).
  all: split; auto; try discriminate.
  intros [H|H]; [lia | contradiction].
Qed.

Lemma fit_model_choice_witness :
  exists call,
    fit_call 0 small_frame None None "f277W" = Some call /\
    (fit_func call = batman
     <-> (order2_cutoff (nrows small_frame) <= 0)%Z \/ Py.lower "f277W" = "f277w"%string) /\
    length (fst (fit_bounds call)) = n_params (fit_func call) /\
    length (snd (fit_bounds call)) = n_params (fit_func call) /\
    fit_x call = Py.arange (nrows small_frame) /\
    fit_sigma call = None.
Proof.
  eexists. split; [reflexivity|].
  apply (fit_model_choice 0 small_frame None None "f277W"). reflexivity.
Defined.

(** ** Bounds, regions and masks of one column *)

Lemma center_bounds (x : Q) : x - 3 < x + 3.
Proof. lra. Qed.

(** X4.  The bounds handed to the fit are well formed: every lower
    bound is strictly below its upper bound, and the center of order 1
    is held within 3 pixels of the trace center [trace_polynomial(1)[idx]]
    (parameter 0 of the single-order model, parameter 6 of the two-order
    model, whose first block is order 2). *)
Theorem fit_bounds_well_formed (idx : Z) (frame : Frame) (bounds : option Bounds)
    (err : option (list Q)) (filt : string) (call : FitCall)
    (Hcall : fit_call idx frame bounds err filt = Some call) :
  Forall2 Qlt (fst (fit_bounds call)) (snd (fit_bounds call)) /\
  exists t1 x1,
    trace_polynomial 1 = Some t1 /\ Py.getitem t1 idx = Some x1 /\
    let k := match fit_func call with batman => 0%nat | batmen => 6%nat end in
    nth_error (fst (fit_bounds call)) k = Some (x1 - 3) /\
    nth_error (snd (fit_bounds call)) k = Some (x1 + 3).
Proof.
  apply fit_call_inv in Hcall as (col & _ & Hset & _).
  unfold fit_setup in Hset. do 4 bind_inv Hset.
  match goal with
  | T1 : trace_polynomial 1 = Some ?l1, E1 : Py.getitem ?l1 idx = Some ?a |- _ =>
      assert (Hx : exists t1 x1, trace_polynomial 1 = Some t1 /\ Py.getitem t1 idx = Some x1
                                 /\ x1 = a) by eauto
  end.
  destruct Hx as (t1 & x1 & Ht & Hg & <-).
  destruct (_ || _); injection Hset as Hf Hb; rewrite <- Hf, <- Hb; cbn [fst snd].
  - split.
    + repeat constructor; try reflexivity; apply center_bounds.
    + do 2 eexists. split; [reflexivity|]. split; [eassumption|]. split; reflexivity.
  - split.
    + repeat constructor; try reflexivity; apply center_bounds.
    + do 2 eexists. split; [reflexivity|]. split; [eassumption|]. split; reflexivity.
Qed.

Lemma fit_bounds_well_formed_witness :
  exists call,
    fit_call 0 small_frame None None "CLEAR" = Some call /\
    Forall2 Qlt (fst (fit_bounds call)) (snd (fit_bounds call)) /\
    exists t1 x1,
      trace_polynomial 1 = Some t1 /\ Py.getitem t1 0 = Some x1 /\
      let k := match fit_func call with batman => 0%nat | batmen => 6%nat end in
      nth_error (fst (fit_bounds call)) k = Some (x1 - 3) /\
      nth_error (snd (fit_bounds call)) k = Some (x1 + 3).
Proof.
  eexists. split; [reflexivity|].
  apply (fit_bounds_well_formed 0 small_frame None None "CLEAR"). reflexivity.
Defined.

Lemma unmask_nothing_inside (col : list Q) (lim : Q * Q) :
  (forall i, ~ inside lim i) ->
  unmask (Py.ones_like col) (Py.arange (length col)) lim = repeat 1 (length col).
Proof.
  intros H. rewrite unmask_ones, <- ones_like_repeat.
  unfold Py.ones_like. rewrite (map_const_seq 1 col 0).
  apply map_ext. intros i.
  destruct (insideb lim i) eqn:E; [|reflexivity].
  apply insideb_spec in E. now apply H in E.
Qed.

Lemma region_int_radius (ps : list Gaussian) (sigma : Q) (radius : PyVal) (r : Z)
    (lim : Q * Q) :
  int_radius radius = Some r -> signal_region ps sigma radius lim ->
  exists mid, In mid ps /\ lim = (g_mu mid - inject_Z r, g_mu mid + inject_Z r).
Proof.
  intros Hr (lo & mid & hi & Hp & _ & _ & Hlim). rewrite Hr in Hlim.
  exists mid. split; [|exact Hlim].
  eapply Permutation_in; [exact Hp|]. simpl. auto.
Qed.

Lemma empty_region (c : Q) (r : Z) (i : nat) :
  (r <= 0)%Z -> ~ inside (c - inject_Z r, c + inject_Z r) i.
Proof.
  intros Hr [H1 H2]. simpl in H1, H2.
  assert (Hq : inject_Z r <= 0) by (rewrite Zle_Qle in Hr; exact Hr).
  lra.
Qed.

(** X5.  An integer radius that is zero or negative ([False] counts as
    0) leaves no pixel strictly inside the region: both masks come back
    all ones. *)
Theorem nonpositive_radius_masks_everything (curve_fit : FitCall -> option (list Q))
    (idx : Z) (frame : Frame) (bounds : option Bounds) (sigma : Q)
    (err : option (list Q)) (radius : PyVal) (filt : string) (r : Z)
    (ord1 ord2 : list Q)
    (Hradius : int_radius radius = Some r) (Hr : (r <= 0)%Z)
    (Hrun : isolate_signal curve_fit idx frame bounds sigma err radius filt
            = Some (ord1, ord2)) :
  ord1 = repeat 1 (nrows frame) /\ ord2 = repeat 1 (nrows frame).
Proof.
  apply isolate_signal_inv in Hrun
    as (col & call & fitted & lim1 & Hcol & _ & _ & Hlim1 & -> & H2).
  apply column_length in Hcol as <-.
  assert (Hempty : forall params off lim,
             order_limits params off sigma radius = Some lim ->
             forall i, ~ inside lim i).
  { intros params off lim Hl i.
    apply order_limits_region in Hl as (ps & _ & Hreg).
    destruct (region_int_radius _ _ _ _ _ Hradius Hreg) as (mid & _ & ->).
    now apply empty_region. }
  split.
  - apply unmask_nothing_inside. eauto.
  - destruct (fit_func call).
    + subst ord2. apply ones_like_repeat.
    + destruct H2 as (lim2 & Hlim2 & ->). apply unmask_nothing_inside. eauto.
Qed.

Lemma nonpositive_radius_masks_everything_witness :
  [1; 1; 1; 1] = repeat 1 (nrows small_frame) /\
  [1; 1; 1; 1] = repeat 1 (nrows small_frame).
Proof.
  apply (nonpositive_radius_masks_everything
           (fun _ => Some [2; 1; 1; 1; 1; 1; 1; 1; 1; 1; 1; 1]) 0 small_frame
           None (1 # 2) None (PyBool false) "CLEAR" 0).
  - reflexivity.
  - lia.
  - reflexivity.
Defined.

Lemma inside_between (lim : Q * Q) (i j k : nat) :
  (i <= j <= k)%nat -> inside lim i -> inside lim k -> inside lim j.
Proof.
  unfold inside. intros [Hij Hjk] [Hi _] [_ Hk].
  assert (H1 : inject_Z (Z.of_nat i) <= inject_Z (Z.of_nat j))
    by (rewrite <- Zle_Qle; lia).
  assert (H2 : inject_Z (Z.of_nat j) <= inject_Z (Z.of_nat k))
    by (rewrite <- Zle_Qle; lia).
  split; lra.
Qed.

Lemma unmask_contiguous (col : list Q) (lim : Q * Q) :
  contiguous_zeros (unmask (Py.ones_like col) (Py.arange (length col)) lim).
Proof.
  destruct (unmask_mask_of col lim) as [Hlen Hm].
  intros i j k Hijk Hi Hk.
  assert (Hkl : (k < length col)%nat).
  { rewrite <- Hlen. apply nth_error_Some. congruence. }
  apply (Hm j); [lia|].
  apply (inside_between lim i j k Hijk); [apply (Hm i) | apply (Hm k)];
    assumption || lia.
Qed.

Lemma ones_like_contiguous (col : list Q) : contiguous_zeros (Py.ones_like col).
Proof.
  intros i j k _ Hi _. unfold Py.ones_like in Hi.
  rewrite nth_error_map in Hi. destruct (nth_error col i); discriminate Hi.
Qed.

(** X6.  In each returned mask the signal pixels (the zeros) form a
    single run of consecutive rows. *)
Theorem signal_pixels_contiguous (curve_fit : FitCall -> option (list Q)) (idx : Z)
    (frame : Frame) (bounds : option Bounds) (sigma : Q) (err : option (list Q))
    (radius : PyVal) (filt : string) (ord1 ord2 : list Q)
    (Hrun : isolate_signal curve_fit idx frame bounds sigma err radius filt
            = Some (ord1, ord2)) :
  contiguous_zeros ord1 /\ contiguous_zeros ord2.
Proof.
  apply isolate_signal_inv in Hrun
    as (col & call & fitted & lim1 & _ & _ & _ & _ & -> & H2).
  split; [apply unmask_contiguous|].
  destruct (fit_func call).
  - subst ord2. apply ones_like_contiguous.
  - destruct H2 as (lim2 & _ & ->). apply unmask_contiguous.
Qed.

Lemma signal_pixels_contiguous_witness :
  contiguous_zeros [1; 0; 0; 0] /\ contiguous_zeros [1; 1; 1; 1].
Proof.
  apply (signal_pixels_contiguous (fun _ => Some [2; 1; 1; 1; 1; 1]) 0 small_frame
           None (1 # 2) None PyNone "F277W").
  reflexivity.
Defined.

(** X7.  Without an integer radius, for a multiplier [sigma >= 0] and
    fitted widths that are not negative, the region of an order reaches
    from at or below the lowest of the three centers to at or above the
    highest: every component center lies within the limits. *)
Theorem sigma_region_covers_centers (params : list Q) (off : Z) (sigma : Q)
    (radius : PyVal) (ps : list Gaussian) (lim : Q * Q)
    (Hradius : isinstance_int radius = false)
    (Hsigma : 0 <= sigma)
    (Hps : components params off = Some ps)
    (Hwidths : Forall (fun g => 0 <= g_sigma g) ps)
    (Hlim : order_limits params off sigma radius = Some lim) :
  Forall (fun g => fst lim <= g_mu g /\ g_mu g <= snd lim) ps.
Proof.
  unfold order_limits in Hlim. rewrite Hps in Hlim. cbn [Py.bind] in Hlim.
  destruct (components_three _ _ _ Hps) as (p1 & p2 & p3 & ->).
  destruct (sorted_three g_mu p1 p2 p3) as (lo & mid & hi & Hs & Hp & H1 & H2).
  rewrite Hs, limits_three in Hlim.
  assert (Hn : int_radius radius = None) by (destruct radius; try discriminate; reflexivity).
  rewrite Hn in Hlim. injection Hlim as <-. cbn [fst snd].
  assert (Hsorted : Forall (fun g => 0 <= g_sigma g) [lo; mid; hi]).
  { rewrite Forall_forall in *. intros g Hg. apply Hwidths.
    eapply Permutation_in; [exact Hp | exact Hg]. }
  inversion Hsorted as [|? ? Hlo Hrest]; subst.
  inversion Hrest as [|? ? _ Hrest']; subst.
  inversion Hrest' as [|? ? Hhi _]; subst.
  pose proof (Qmult_le_0_compat _ _ Hlo Hsigma) as Hl.
  pose proof (Qmult_le_0_compat _ _ Hhi Hsigma) as Hh.
  assert (Hall : Forall (fun g => g_mu lo - g_sigma lo * sigma <= g_mu g /\
                                  g_mu g <= g_mu hi + g_sigma hi * sigma) [lo; mid; hi]).
  { repeat constructor; lra. }
  rewrite Forall_forall in *. intros g Hg. apply Hall.
  eapply Permutation_in; [symmetry; exact Hp | exact Hg].
Qed.

Lemma sigma_region_covers_centers_witness :
  Forall (fun g => (-7 # 2) <= g_mu g /\ g_mu g <= (15 # 2))
         [mkGaussian 2 1 1; mkGaussian (2 - 4) 3 1; mkGaussian (2 + 4) 3 1].
Proof.
  apply (sigma_region_covers_centers [2; 1; 1; 3; 1; 4] 0 (1 # 2) (PyFloat 1)
           [mkGaussian 2 1 1; mkGaussian (2 - 4) 3 1; mkGaussian (2 + 4) 3 1]
           (-7 # 2, 15 # 2)).
  - reflexivity.
  - discriminate.
  - reflexivity.
  - repeat constructor; simpl; discriminate.
  - reflexivity.
Defined.

(** X8.  After a two-order fit the parameter vector is rotated by six:
    the components of order 1 are read from the second block of the
    fitted vector and those of order 2 from the first; rotating twice
    gives the fitted vector back. *)
Theorem switch_orders_blocks (params : list Q) (Hlen : length params = 12%nat) :
  components (switch_orders params) 0 = components params 6 /\
  components (switch_orders params) 6 = components params 0 /\
  switch_orders (switch_orders params) = params.
Proof.
  do 13 (destruct params as [|? params]; try discriminate Hlen).
  repeat split; reflexivity.
Qed.

Lemma switch_orders_blocks_witness :
  components (switch_orders [1; 2; 3; 4; 5; 6; 7; 8; 9; 10; 11; 12]) 0
  = components [1; 2; 3; 4; 5; 6; 7; 8; 9; 10; 11; 12] 6 /\
  components (switch_orders [1; 2; 3; 4; 5; 6; 7; 8; 9; 10; 11; 12]) 6
  = components [1; 2; 3; 4; 5; 6; 7; 8; 9; 10; 11; 12] 0 /\
  switch_orders (switch_orders [1; 2; 3; 4; 5; 6; 7; 8; 9; 10; 11; 12])
  = [1; 2; 3; 4; 5; 6; 7; 8; 9; 10; 11; 12].
Proof.
  apply (switch_orders_blocks [1; 2; 3; 4; 5; 6; 7; 8; 9; 10; 11; 12]). reflexivity.
Defined.

(** ** The builder: failures, the mask file and the assembled masks *)

Lemma mapM_none {A B : Type} (f : A -> option B) (l : list A) (a : A) :
  In a l -> f a = None -> Py.mapM f l = None.
Proof.
  induction l as [|b l IH]; simpl; [tauto|].
  intros [-> | Hin] Hf.
  - now rewrite Hf.
  - destruct (f b); [|reflexivity]. now rewrite IH.
Qed.

Lemma arange_in (n j : nat) : (j < n)%nat -> In (Z.of_nat j) (Py.arange n).
Proof.
  intros Hj. unfold Py.arange. apply in_map, in_seq. lia.
Qed.

(** X9.  A frame with fewer than 2048 columns cannot be processed: with
    [save=True] the builder prints its progress line, raises when the
    first missing column is indexed, and writes no file. *)
Theorem narrow_frame_raises (curve_fit : FitCall -> option (list Q))
    (sched : Pool.Schedule) (fuel : nat) (w : World) (frame : Frame)
    (subarray : string) (n_jobs : Z) (plot : bool) (kwargs : Kwargs)
    (Hnarrow : (ncols frame < 2048)%nat)
    (Hsched : Pool.valid sched) (Hjobs : (1 <= n_jobs)%Z) :
  order_masks curve_fit sched (S fuel) w frame subarray n_jobs plot true kwargs
  = Some (Raised, print w "Coffee time! This takes about 3 minutes...").
Proof.
  cbn [order_masks].
  destruct (pool_make_some n_jobs Hjobs) as (workers & -> & Hw).
  rewrite pool_map_sequential by assumption.
  rewrite (mapM_none _ _ (Z.of_nat (ncols frame))); [reflexivity | |].
  - now apply arange_in.
  - unfold isolate_signal, column.
    replace (Py.index (ncols frame) (Z.of_nat (ncols frame))) with (@None nat);
      [reflexivity|].
    symmetry. apply index_none. unfold in_range. lia.
Qed.

Lemma narrow_frame_raises_witness :
  order_masks lower_bound_fit in_order 1 empty_world small_frame "SUBSTRIP256" 4
              false true no_kwargs
  = Some (Raised, print empty_world "Coffee time! This takes about 3 minutes...").
Proof.
  apply (narrow_frame_raises lower_bound_fit in_order 0 empty_world small_frame
           "SUBSTRIP256" 4 false no_kwargs).
  - simpl. lia.
  - exact in_order_valid.
  - lia.
Defined.

(** X10.  A call of the builder that raises leaves the mask file as it
    was: the file is written only after all 2048 columns have been
    fitted and assembled. *)
Theorem failed_build_keeps_file (curve_fit : FitCall -> option (list Q))
    (sched : Pool.Schedule) (fuel : nat) (w w' : World) (frame : Frame)
    (subarray : string) (n_jobs : Z) (plot : bool) (save : bool) (kwargs : Kwargs)
    (Hrun : order_masks curve_fit sched fuel w frame subarray n_jobs plot save kwargs
            = Some (Raised, w')) :
  order_masks_npy w' = order_masks_npy w.
Proof.
  revert w w' subarray n_jobs save kwargs Hrun.
  induction fuel as [|fuel IH]; intros w w' subarray n_jobs save kwargs Hrun;
    [discriminate|].
  cbn [order_masks] in Hrun. destruct save.
  - destruct (Pool.make n_jobs) as [workers|]; [|now injection Hrun as <-].
    destruct (Pool.map workers sched _ _) as [masks|]; [|now injection Hrun as <-].
    destruct (set_masks 0 masks _ _) as [[order1 order2]|]; [discriminate|].
    now injection Hrun as <-.
  - destruct (order_masks_npy w) as [[order1 order2]|] eqn:Hnpy; [discriminate|].
    destruct (order_masks curve_fit sched fuel _ frame _ _ plot true no_kwargs)
      as [[[|[m|]] w1]|] eqn:Hrec; try discriminate.
    + injection Hrun as <-. apply IH in Hrec. rewrite Hrec. simpl. now rewrite Hnpy.
    + injection Hrun as <-. exfalso.
      destruct fuel as [|fuel']; [discriminate|]. cbn [order_masks] in Hrec.
      destruct (Pool.make 4) as [workers|]; [|discriminate].
      destruct (Pool.map workers sched _ _) as [masks|]; [|discriminate].
      destruct (set_masks 0 masks _ _) as [[order1 order2]|]; discriminate.
Qed.

Lemma failed_build_keeps_file_witness :
  order_masks_npy (print empty_world "Coffee time! This takes about 3 minutes...")
  = order_masks_npy empty_world.
Proof.
  apply (failed_build_keeps_file lower_bound_fit in_order 1 empty_world _ two_row_frame
           "SUBSTRIP256" 0 false true no_kwargs).
  reflexivity.
Defined.

(** The pair behind a returned pair: what the file holds afterwards,
    untrimmed, and what any other subarray would have been given. *)
Lemma order_masks_untrimmed (curve_fit : FitCall -> option (list Q))
    (sched : Pool.Schedule) (fuel : nat) (w w' : World) (frame : Frame)
    (subarray : string) (n_jobs : Z) (plot : bool) (save : bool) (kwargs : Kwargs)
    (m : Frame * Frame) :
  order_masks curve_fit sched fuel w frame subarray n_jobs plot save kwargs
  = Some (Returned (Some m), w') ->
  exists order1 order2,
    order_masks_npy w' = Some (order1, order2) /\
    m = trim subarray order1 order2 /\
    forall subarray',
      order_masks curve_fit sched fuel w frame subarray' n_jobs plot save kwargs
      = Some (Returned (Some (trim subarray' order1 order2)), w').
Proof.
  destruct fuel as [|fuel]; [discriminate|]. cbn [order_masks]. destruct save.
  - destruct (Pool.make n_jobs) as [workers|]; [|discriminate].
    destruct (Pool.map workers sched _ _) as [masks|]; [|discriminate].
    destruct (set_masks 0 masks _ _) as [[order1 order2]|]; [|discriminate].
    intros [= <- <-]. exists order1, order2. auto.
  - destruct (order_masks_npy w) as [[order1 order2]|] eqn:Hnpy.
    + intros [= <- <-]. exists order1, order2. auto.
    + destruct (order_masks curve_fit sched fuel _ frame _ _ plot true no_kwargs)
        as [[[|[m'|]] w1]|]; discriminate.
Qed.

(** X11.  Once a call has returned a pair of masks, the mask file holds
    the pair, and a later call with [save=False] and the same subarray
    returns the same pair without fitting anything and without touching
    the file or printing, whatever frame, number of workers or keyword
    arguments it is given. *)
Theorem order_masks_round_trip (curve_fit : FitCall -> option (list Q))
    (sched : Pool.Schedule) (fuel : nat) (w w' : World) (frame : Frame)
    (subarray : string) (n_jobs : Z) (plot : bool) (save : bool) (kwargs : Kwargs)
    (m : Frame * Frame)
    (Hrun : order_masks curve_fit sched fuel w frame subarray n_jobs plot save kwargs
            = Some (Returned (Some m), w')) :
  forall curve_fit' sched' fuel' frame' n_jobs' plot' kwargs',
    order_masks curve_fit' sched' (S fuel') w' frame' subarray n_jobs' plot' false kwargs'
    = Some (Returned (Some m), w').
Proof.
  apply order_masks_untrimmed in Hrun as (order1 & order2 & Hnpy & -> & _).
  intros. cbn [order_masks]. rewrite Hnpy. reflexivity.
Qed.

Lemma order_masks_round_trip_witness :
  order_masks (fun _ => None) reversed 1
              (mkWorld (Some (small_frame, small_frame)) None (fun _ => None)
                       (fun _ => None) [])
              two_row_frame "FULL" 0 true false (mkKwargs None 5 None (PyInt 3) "F277W")
  = Some (Returned (Some (small_frame, small_frame)),
          mkWorld (Some (small_frame, small_frame)) None (fun _ => None)
                  (fun _ => None) []).
Proof.
  apply (order_masks_round_trip lower_bound_fit in_order 1
           (mkWorld (Some (small_frame, small_frame)) None (fun _ => None)
                    (fun _ => None) [])
           _ small_frame "FULL" 4 false false no_kwargs).
  reflexivity.
Defined.

(** X12.  The masks returned for SUBSTRIP96 are the first 96 rows of
    the masks the same call returns for any other subarray; the file
    holds the untrimmed pair in both cases. *)
Theorem substrip96_is_first_96_rows (curve_fit : FitCall -> option (list Q))
    (sched : Pool.Schedule) (fuel : nat) (w w' : World) (frame : Frame)
    (subarray : string) (n_jobs : Z) (plot : bool) (save : bool) (kwargs : Kwargs)
    (order1 order2 : Frame)
    (Hsub : subarray <> "SUBSTRIP96"%string)
    (Hrun : order_masks curve_fit sched fuel w frame subarray n_jobs plot save kwargs
            = Some (Returned (Some (order1, order2)), w')) :
  order_masks curve_fit sched fuel w frame "SUBSTRIP96" n_jobs plot save kwargs
  = Some (Returned (Some (head_rows 96 order1, head_rows 96 order2)), w') /\
  order_masks_npy w' = Some (order1, order2).
Proof.
  apply order_masks_untrimmed in Hrun as (a1 & a2 & Hnpy & Hm & Hall).
  unfold trim in Hm.
  destruct (String.eqb_spec subarray "SUBSTRIP96") as [|_]; [contradiction|].
  injection Hm as -> ->. split; [|exact Hnpy].
  rewrite (Hall "SUBSTRIP96"%string). reflexivity.
Qed.

Lemma substrip96_is_first_96_rows_witness :
  order_masks lower_bound_fit in_order 1
              (mkWorld (Some (small_frame, small_frame)) None (fun _ => None)
                       (fun _ => None) [])
              two_row_frame "SUBSTRIP96" 4 false false no_kwargs
  = Some (Returned (Some (head_rows 96 small_frame, head_rows 96 small_frame)),
          mkWorld (Some (small_frame, small_frame)) None (fun _ => None)
                  (fun _ => None) []) /\
  order_masks_npy (mkWorld (Some (small_frame, small_frame)) None (fun _ => None)
                           (fun _ => None) [])
  = Some (small_frame, small_frame).
Proof.
  apply (substrip96_is_first_96_rows lower_bound_fit in_order 1
           (mkWorld (Some (small_frame, small_frame)) None (fun _ => None)
                    (fun _ => None) [])
           _ two_row_frame "SUBSTRIP256" 4 false false no_kwargs).
  - discriminate.
  - reflexivity.
Defined.

(** X13.  When there is no mask file and [save=False], the subarray, the
    number of workers and the keyword arguments of the caller play no
    part: the masks are regenerated by a self-call that passes only the
    frame, so the file is written for filter CLEAR with four workers
    whatever was asked for. *)
Theorem cache_miss_ignores_arguments (curve_fit : FitCall -> option (list Q))
    (sched : Pool.Schedule) (fuel : nat) (w : World) (frame : Frame)
    (subarray1 subarray2 : string) (n_jobs1 n_jobs2 : Z) (plot : bool)
    (kwargs1 kwargs2 : Kwargs)
    (Hmiss : order_masks_npy w = None) :
  order_masks curve_fit sched fuel w frame subarray1 n_jobs1 plot false kwargs1
  = order_masks curve_fit sched fuel w frame subarray2 n_jobs2 plot false kwargs2.
Proof.
  destruct fuel as [|fuel]; [reflexivity|].
  cbn [order_masks]. rewrite Hmiss. reflexivity.
Qed.

Lemma cache_miss_ignores_arguments_witness :
  order_masks lower_bound_fit in_order 2 empty_world two_row_frame "SUBSTRIP96" 0 false
              false (mkKwargs None 5 None (PyInt 3) "F277W")
  = order_masks lower_bound_fit in_order 2 empty_world two_row_frame "SUBSTRIP256" 4 false
                false no_kwargs.
Proof.
  apply (cache_miss_ignores_arguments lower_bound_fit in_order 2 empty_world
           two_row_frame "SUBSTRIP96" "SUBSTRIP256" 0 4 false
           (mkKwargs None 5 None (PyInt 3) "F277W") no_kwargs).
  reflexivity.
Defined.

Lemma update_length {A : Type} (l : list A) (n : nat) (v : A) :
  length (Py.update l n v) = length l.
Proof.
  revert n. induction l as [|a l IH]; intros [|n]; simpl; auto.
Qed.

Lemma update_nth_same {A : Type} (l : list A) (n : nat) (v d : A) :
  (n < length l)%nat -> nth n (Py.update l n v) d = v.
Proof.
  revert n. induction l as [|a l IH]; intros [|n] Hn; simpl in *; try lia; auto.
  apply IH. lia.
Qed.

Lemma update_nth_other {A : Type} (l : list A) (n j : nat) (v d : A) :
  j <> n -> nth j (Py.update l n v) d = nth j l d.
Proof.
  revert n j. induction l as [|a l IH]; intros [|n] [|j] Hj; simpl; auto; try lia.
Qed.

Lemma column_nat (a : Frame) (j : nat) :
  (j < ncols a)%nat ->
  column a (Z.of_nat j) = Some (map (fun r => nth j r 0) (rows a)).
Proof.
  intros Hj. unfold column. now rewrite index_nonneg.
Qed.

Lemma set_column_inv (a a' : Frame) (n : nat) (v : list Q) :
  set_column a n v = Some a' ->
  (n < ncols a)%nat /\ length v = nrows a /\
  a' = mkFrame (ncols a)
         (map (fun rv => Py.update (fst rv) n (snd rv)) (combine (rows a) v)).
Proof.
  unfold set_column.
  destruct (Nat.ltb_spec n (ncols a)); [|discriminate].
  destruct (Nat.eqb_spec (length v) (nrows a)); [|discriminate].
  simpl. intros [= <-]. auto.
Qed.

Lemma set_column_rectangular (a a' : Frame) (n : nat) (v : list Q) :
  rectangular a -> set_column a n v = Some a' -> rectangular a'.
Proof.
  intros Ha H. apply set_column_inv in H as (_ & _ & ->).
  unfold rectangular in *. simpl.
  apply Forall_map, Forall_forall. intros [r x] Hin. simpl.
  rewrite update_length. apply in_combine_l in Hin.
  rewrite Forall_forall in Ha. now apply Ha.
Qed.

Lemma updated_column_same (n : nat) (rs : list (list Q)) (v : list Q) :
  length v = length rs -> Forall (fun r => (n < length r)%nat) rs ->
  map (fun r => nth n r 0) (map (fun rv => Py.update (fst rv) n (snd rv)) (combine rs v))
  = v.
Proof.
  intros Hl Hr. revert v Hl.
  induction Hr as [|r rs Hn Hr IH]; intros [|x v] Hl; simpl in *; try discriminate;
    [reflexivity|].
  rewrite update_nth_same by assumption. f_equal. apply IH. lia.
Qed.

Lemma updated_column_other (n j : nat) (rs : list (list Q)) (v : list Q) :
  j <> n -> length v = length rs ->
  map (fun r => nth j r 0) (map (fun rv => Py.update (fst rv) n (snd rv)) (combine rs v))
  = map (fun r => nth j r 0) rs.
Proof.
  intros Hj. revert v.
  induction rs as [|r rs IH]; intros [|x v] Hl; simpl in *; try discriminate;
    [reflexivity|].
  rewrite update_nth_other by assumption. f_equal. apply IH. lia.
Qed.

Lemma set_column_same (a a' : Frame) (n : nat) (v : list Q) :
  rectangular a -> set_column a n v = Some a' -> column a' (Z.of_nat n) = Some v.
Proof.
  intros Ha H. apply set_column_inv in H as (Hn & Hv & ->).
  rewrite column_nat by exact Hn. simpl. f_equal.
  apply updated_column_same; [exact Hv|].
  unfold rectangular in Ha. rewrite Forall_forall in *. intros r Hr.
  rewrite (Ha r Hr). exact Hn.
Qed.

Lemma set_column_other (a a' : Frame) (n j : nat) (v : list Q) :
  j <> n -> set_column a n v = Some a' ->
  column a' (Z.of_nat j) = column a (Z.of_nat j).
Proof.
  intros Hj H. apply set_column_inv in H as (Hn & Hv & ->).
  unfold column. simpl. destruct (Py.index (ncols a) (Z.of_nat j)) as [i|] eqn:E;
    [|reflexivity].
  assert (i = j) as ->.
  { destruct (Nat.lt_ge_cases j (ncols a)) as [Hlt|Hge].
    - rewrite index_nonneg in E by exact Hlt. now injection E.
    - apply index_bound in E as Hi. unfold Py.index in E.
      destruct (Z.leb_spec 0 (Z.of_nat j)), (Z.ltb_spec (Z.of_nat j) (Z.of_nat (ncols a)));
        simpl in E; try lia.
      destruct (Z.ltb_spec (Z.of_nat j) 0); [lia|].
      rewrite andb_false_r in E. discriminate. }
  cbn [Py.bind]. f_equal. now apply updated_column_other.
Qed.

(** The loop that sets the columns: mask [k] of the list lands in column
    [n + k], every other column is left as it was. *)
Lemma set_masks_columns (masks : list (list Q * list Q)) (n : nat)
    (a1 a2 b1 b2 : Frame) :
  rectangular a1 -> rectangular a2 ->
  set_masks n masks a1 a2 = Some (b1, b2) ->
  (ncols b1 = ncols a1 /\ nrows b1 = nrows a1) /\
  (ncols b2 = ncols a2 /\ nrows b2 = nrows a2) /\
  (forall k ord1 ord2,
      nth_error masks k = Some (ord1, ord2) ->
      column b1 (Z.of_nat (n + k)) = Some ord1 /\
      column b2 (Z.of_nat (n + k)) = Some ord2) /\
  (forall j, (j < n \/ n + length masks <= j)%nat ->
      column b1 (Z.of_nat j) = column a1 (Z.of_nat j) /\
      column b2 (Z.of_nat j) = column a2 (Z.of_nat j)).
Proof.
  revert n a1 a2. induction masks as [|[o1 o2] masks IH]; intros n a1 a2 H1 H2 H.
  - simpl in H. injection H as <- <-.
    split; [auto|]. split; [auto|]. split; [|auto].
    intros k ord1 ord2 Hk. destruct k; discriminate Hk.
  - simpl in H. do 2 bind_inv H.
    match goal with
    | E1 : set_column a1 n o1 = Some ?c1, E2 : set_column a2 n o2 = Some ?c2 |- _ =>
        rename c1 into c1'; rename c2 into c2';
        pose proof (set_column_rectangular _ _ _ _ H1 E1) as R1;
        pose proof (set_column_rectangular _ _ _ _ H2 E2) as R2;
        pose proof (set_column_shape _ _ _ _ E1) as S1;
        pose proof (set_column_shape _ _ _ _ E2) as S2;
        pose proof (set_column_same _ _ _ _ H1 E1) as C1;
        pose proof (set_column_same _ _ _ _ H2 E2) as C2;
        pose proof (fun j Hj => set_column_other _ _ _ j _ Hj E1) as O1;
        pose proof (fun j Hj => set_column_other _ _ _ j _ Hj E2) as O2
    end.
    destruct (IH (S n) c1' c2' R1 R2 H) as (T1 & T2 & Hin & Hout).
    split; [destruct S1, T1; split; congruence|].
    split; [destruct S2, T2; split; congruence|].
    split.
    + intros k' ord1 ord2 Hk. destruct k' as [|k]; simpl in Hk.
      * injection Hk as <- <-. rewrite Nat.add_0_r.
        destruct (Hout n) as [E1 E2]; [lia|]. rewrite E1, E2. auto.
      * replace (n + S k)%nat with (S n + k)%nat by lia. now apply Hin.
    + intros j Hj. simpl in Hj.
      destruct (Hout j) as [E1 E2]; [lia|]. rewrite E1, E2.
      split; [apply O1 | apply O2]; lia.
Qed.

Lemma mapM_nth {A B : Type} (f : A -> option B) (l : list A) (bs : list B)
    (n : nat) (a : A) :
  Py.mapM f l = Some bs -> nth_error l n = Some a ->
  exists b, f a = Some b /\ nth_error bs n = Some b.
Proof.
  revert bs n. induction l as [|x l IH]; intros bs n H Hn.
  - destruct n; discriminate Hn.
  - simpl in H. destruct (f x) as [b|] eqn:Ex; [|discriminate].
    destruct (Py.mapM f l) as [bs'|] eqn:El; [|discriminate].
    injection H as <-. destruct n as [|n]; simpl in Hn.
    + injection Hn as <-. eauto.
    + simpl. eapply IH; eauto.
Qed.

Lemma zeros_like_column (frame : Frame) (j : nat) :
  (j < ncols frame)%nat ->
  column (zeros_like frame) (Z.of_nat j) = Some (repeat 0 (nrows frame)).
Proof.
  intros Hj. rewrite column_nat by exact Hj. f_equal. unfold zeros_like, nrows. simpl.
  rewrite map_map. induction (rows frame) as [|r rs IH]; simpl; [reflexivity|].
  rewrite IH. f_equal.
  clear. revert j. induction r as [|x r IH]; intros [|j]; simpl; auto.
Qed.

Lemma zeros_like_rectangular (frame : Frame) :
  rectangular frame -> rectangular (zeros_like frame).
Proof.
  unfold rectangular, zeros_like. simpl. intros H.
  apply Forall_map. rewrite Forall_forall in *. intros r Hr.
  rewrite length_map. now apply H.
Qed.

(** X14.  With [save=True], on a rectangular frame of at least 2048
    columns, with a fit that converges and at least one worker, the
    builder returns and saves two masks of the frame's shape in which
    column [n], for every [n] below 2048, is the mask [isolate_signal]
    returns for column [n]; columns from 2048 on, if the frame has any,
    stay zero (unmasked) in both orders.  The returned pair is the saved
    pair trimmed for the subarray. *)
Theorem assembled_masks_by_column (curve_fit : FitCall -> option (list Q))
    (sched : Pool.Schedule) (fuel : nat) (w : World) (frame : Frame)
    (subarray : string) (n_jobs : Z) (plot : bool) (kwargs : Kwargs)
    (Hfit : fit_converges curve_fit) (Hsched : Pool.valid sched)
    (Hjobs : (1 <= n_jobs)%Z) (Hwide : (2048 <= ncols frame)%nat)
    (Hrect : rectangular frame) :
  exists order1 order2,
    order_masks curve_fit sched (S fuel) w frame subarray n_jobs plot true kwargs
    = Some (Returned (Some (trim subarray order1 order2)),
            save_order_masks (print w "Coffee time! This takes about 3 minutes...")
                             (order1, order2)) /\
    (ncols order1 = ncols frame /\ nrows order1 = nrows frame) /\
    (ncols order2 = ncols frame /\ nrows order2 = nrows frame) /\
    (forall n, (n < 2048)%nat ->
       exists ord1 ord2,
         isolate_signal curve_fit (Z.of_nat n) frame (kw_bounds kwargs) (kw_sigma kwargs)
                        (kw_err kwargs) (kw_radius kwargs) (kw_filt kwargs)
         = Some (ord1, ord2) /\
         column order1 (Z.of_nat n) = Some ord1 /\
         column order2 (Z.of_nat n) = Some ord2) /\
    (forall n, (2048 <= n < ncols frame)%nat ->
       column order1 (Z.of_nat n) = Some (repeat 0 (nrows frame)) /\
       column order2 (Z.of_nat n) = Some (repeat 0 (nrows frame))).
Proof.
  destruct (order_masks_generates curve_fit sched fuel w frame subarray n_jobs plot
              kwargs Hfit Hsched Hjobs Hwide) as (order1 & order2 & Hrun).
  exists order1, order2. split; [exact Hrun|].
  cbn [order_masks] in Hrun.
  destruct (pool_make_some n_jobs Hjobs) as (workers & Hmk & Hw).
  rewrite Hmk, pool_map_sequential in Hrun by assumption.
  destruct (Py.mapM _ (Py.arange 2048)) as [masks|] eqn:Hmasks; [|discriminate].
  destruct (set_masks 0 masks _ _) as [[a1 a2]|] eqn:Hset; [|discriminate].
  assert (a1 = order1 /\ a2 = order2) as [-> ->].
  { injection Hrun as _ -> ->. auto. }
  clear Hrun.
  destruct (set_masks_columns masks 0 _ _ _ _ (zeros_like_rectangular _ Hrect)
              (zeros_like_rectangular _ Hrect) Hset) as (S1 & S2 & Hin & Hout).
  assert (Hz : nrows (zeros_like frame) = nrows frame)
    by (unfold nrows, zeros_like; simpl; now rewrite length_map).
  rewrite Hz in S1, S2. cbn [zeros_like ncols] in S1, S2.
  split; [exact S1|]. split; [exact S2|].
  pose proof (mapM_length _ _ _ Hmasks) as Hlen. rewrite arange_length in Hlen.
  split.
  - intros n Hn.
    destruct (mapM_nth _ _ _ n (Z.of_nat n) Hmasks (arange_nth 2048 n Hn))
      as ([ord1 ord2] & Ho & Hk).
    exists ord1, ord2. split; [exact Ho|]. apply (Hin n ord1 ord2 Hk).
  - intros n [Hn Hc].
    destruct (Hout n) as [E1 E2]; [right; lia|].
    rewrite E1, E2. rewrite zeros_like_column by exact Hc. auto.
Qed.

Lemma assembled_masks_by_column_witness :
  exists order1 order2,
    order_masks lower_bound_fit reversed 1 empty_world two_row_frame "SUBSTRIP256" 8
                false true no_kwargs
    = Some (Returned (Some (trim "SUBSTRIP256" order1 order2)),
            save_order_masks
              (print empty_world "Coffee time! This takes about 3 minutes...")
              (order1, order2)) /\
    (ncols order1 = ncols two_row_frame /\ nrows order1 = nrows two_row_frame) /\
    (ncols order2 = ncols two_row_frame /\ nrows order2 = nrows two_row_frame) /\
    (forall n, (n < 2048)%nat ->
       exists ord1 ord2,
         isolate_signal lower_bound_fit (Z.of_nat n) two_row_frame (kw_bounds no_kwargs)
                        (kw_sigma no_kwargs) (kw_err no_kwargs) (kw_radius no_kwargs)
                        (kw_filt no_kwargs)
         = Some (ord1, ord2) /\
         column order1 (Z.of_nat n) = Some ord1 /\
         column order2 (Z.of_nat n) = Some ord2) /\
    (forall n, (2048 <= n < ncols two_row_frame)%nat ->
       column order1 (Z.of_nat n) = Some (repeat 0 (nrows two_row_frame)) /\
       column order2 (Z.of_nat n) = Some (repeat 0 (nrows two_row_frame))).
Proof.
  apply (assembled_masks_by_column lower_bound_fit reversed 0 empty_world two_row_frame
           "SUBSTRIP256" 8 false no_kwargs).
  - exact lower_bound_fit_converges.
  - exact reversed_valid.
  - lia.
  - simpl. lia.
  - unfold rectangular, two_row_frame. simpl.
    repeat constructor; apply repeat_length.
Defined.

(** ** The wavelength bins: file, slots and edges *)





Lemma getitem_nat {A : Type} (l : list A) (n : nat) (a d : A) :
  Py.getitem l (Z.of_nat n) = Some a -> (n < length l)%nat /\ nth n l d = a.
Proof.
  unfold Py.getitem. destruct (Py.index (length l) (Z.of_nat n)) as [j|] eqn:E;
    [|discriminate].
  pose proof (index_bound _ _ _ E) as Hj.
  assert (j = n) as ->.
  { unfold Py.index in E.
    destruct (Z.leb_spec 0 (Z.of_nat n)); [|lia].
    destruct (Z.ltb_spec (Z.of_nat n) (Z.of_nat (length l))); simpl in E.
    - injection E as <-. lia.
    - destruct (Z.ltb_spec (Z.of_nat n) 0); [lia|].
      rewrite andb_false_r in E. discriminate. }
  intros H. split; [exact Hj|]. now apply nth_error_nth.
Qed.

(** The loop over the pairs: pair [j] appends its bins to slot
    [order + j], the other slots are left alone. *)
Lemma fill_bins_slots (pairs : list (list (list Q) * Frame)) (order : nat)
    (sp sp' : list (list Bin)) :
  fill_bins order pairs sp = Some sp' ->
  length sp' = length sp /\
  (forall j t m, nth_error pairs j = Some (t, m) ->
     exists bins, order_bins t m = Some bins /\
                  nth (order + j) sp' [] = nth (order + j) sp [] ++ bins) /\
  (forall k, (k < order \/ order + length pairs <= k)%nat ->
     nth k sp' [] = nth k sp []).
Proof.
  revert order sp. induction pairs as [|[t m] pairs IH]; intros order sp H.
  - simpl in H. injection H as <-. split; [reflexivity|]. split; [|reflexivity].
    intros j ? ? Hj. destruct j; discriminate Hj.
  - simpl in H. do 2 bind_inv H.
    match goal with
    | E1 : order_bins t m = Some ?b, E2 : Py.getitem sp (Z.of_nat order) = Some ?c |- _ =>
        rename b into bins; rename c into cur;
        destruct (getitem_nat sp order cur [] E2) as [Ho Hcur]
    end.
    destruct (IH _ _ H) as (Hlen & Hin & Hout).
    rewrite update_length in Hlen.
    split; [exact Hlen|]. split.
    + intros j t' m' Hj. destruct j as [|j]; simpl in Hj.
      * injection Hj as <- <-. exists bins. split; [assumption|].
        rewrite Nat.add_0_r, Hout by lia.
        rewrite update_nth_same by exact Ho. now rewrite Hcur.
      * destruct (Hin j t' m' Hj) as (bins' & Hb & Hn).
        exists bins'. split; [exact Hb|].
        replace (order + S j)%nat with (S order + j)%nat by lia.
        rewrite Hn, update_nth_other by lia. reflexivity.
    + intros k Hk. simpl in Hk.
      rewrite Hout by lia. apply update_nth_other. lia.
Qed.

(** X17.  With [save=True] the result has three bin lists.  The [k]-th
    list belongs to the [k]-th throughput file that exists (in the order
    1, 2, 3) paired with the [k]-th wavelength map of the calibration
    file; slots beyond the number of existing files, or of maps, are
    empty. *)
Theorem wavelength_bins_slots (fuel : nat) (w w' : World) (subarray : string)
    (wavecal_file : option string) (bins : list (list Bin))
    (Hrun : wavelength_bins (S fuel) w true subarray wavecal_file
            = Some (Returned bins, w')) :
  exists data,
    fits_data w (match wavecal_file with
                 | None => default_wavecal_file
                 | Some f => f
                 end) = Some data /\
    length bins = 3%nat /\
    forall k, (k < 3)%nat ->
      match nth_error (combine (load_filters w) (map swapaxes data)) k with
      | Some (throughput, wave_map) =>
          order_bins throughput wave_map = Some (nth k bins [])
      | None => nth k bins [] = []
      end.
Proof.
  cbn [wavelength_bins] in Hrun.
  destruct (fits_data w _) as [data|]; [|discriminate].
  destruct (fill_bins 0 _ _) as [sp|] eqn:Hfill; [|discriminate].
  injection Hrun as <- _. exists data. split; [reflexivity|].
  destruct (fill_bins_slots _ _ _ _ Hfill) as (Hlen & Hin & Hout).
  split; [exact Hlen|].
  intros k Hk.
  destruct (nth_error (combine (load_filters w) (map swapaxes data)) k)
    as [[t m]|] eqn:Hn.
  - destruct (Hin k t m Hn) as (b & Hb & Hnth). simpl in Hnth.
    rewrite Hb, Hnth. f_equal.
    destruct k as [|[|[|k]]]; try reflexivity. lia.
  - apply nth_error_None in Hn. rewrite Hout by (right; simpl; lia).
    destruct k as [|[|[|k]]]; try reflexivity. lia.
Qed.

Lemma wavelength_bins_slots_witness :
  exists data,
    fits_data world_without_order1 default_wavecal_file = Some data /\
    length [ [[]; [(2, 0)]; []]; [[]; [(2, 0)]; []]; [] ]%nat = 3%nat /\
    forall k, (k < 3)%nat ->
      match nth_error (combine (load_filters world_without_order1) (map swapaxes data)) k
      with
      | Some (throughput, wave_map) =>
          order_bins throughput wave_map
          = Some (nth k [ [[]; [(2, 0)]; []]; [[]; [(2, 0)]; []]; [] ]%nat [])
      | None => nth k [ [[]; [(2, 0)]; []]; [[]; [(2, 0)]; []]; [] ]%nat [] = []
      end.
Proof.
  apply (wavelength_bins_slots 0 world_without_order1
           (save_wavelength_bins world_without_order1
              [ [[]; [(2, 0)]; []]; [[]; [(2, 0)]; []]; [] ]%nat)
           "SUBSTRIP256" None).
  reflexivity.
Defined.

Lemma nth_error_combine_seq {A : Type} (l : list A) (s n : nat) :
  nth_error (combine (seq s (length l)) l) n
  = option_map (fun a => ((s + n)%nat, a)) (nth_error l n).
Proof.
  revert s n. induction l as [|a l IH]; intros s [|n]; simpl; try reflexivity.
  - now rewrite Nat.add_0_r.
  - rewrite IH. destruct (nth_error l n); simpl; [|reflexivity].
    do 2 f_equal. lia.
Qed.

Lemma nth_error_enumerate {A : Type} (l : list A) (n : nat) :
  nth_error (enumerate l) n = option_map (fun a => (n, a)) (nth_error l n).
Proof. unfold enumerate. now rewrite nth_error_combine_seq. Qed.

Lemma enumerate_length {A : Type} (l : list A) : length (enumerate l) = length l.
Proof. unfold enumerate. rewrite length_combine, length_seq. lia. Qed.

Lemma order_bins_inv (throughput : list (list Q)) (wave_map : Frame) (bins : list Bin) :
  order_bins throughput wave_map = Some bins ->
  exists waves,
    Py.getitem throughput 0 = Some waves /\
    bins = map (fun nw =>
                  let dw := bin_edges waves (fst nw) (snd nw) in
                  where_between wave_map (fst dw) (snd dw))
               (enumerate waves).
Proof.
  unfold order_bins. intros H. bind_inv H. injection H as <-. eauto.
Qed.

Lemma entry_spec (a : Frame) (i j : nat) (v : Q) :
  entry a i j = Some v
  <-> exists r, nth_error (rows a) i = Some r /\ nth_error r j = Some v.
Proof.
  unfold entry. destruct (nth_error (rows a) i) as [r|]; simpl.
  - split; [eauto|]. now intros (r' & [= <-] & H).
  - split; [discriminate|]. now intros (r' & H & _).
Qed.

(** X18.  There is one bin per wavelength sample of the throughput
    table, and the bin of sample [n] holds exactly the pixels of the
    wavelength map whose value [v] satisfies [dw0 <= v < dw1] for the
    edges computed for that sample. *)
Theorem bins_hold_pixels_in_interval (throughput : list (list Q)) (wave_map : Frame)
    (waves : list Q) (bins : list Bin)
    (Hwaves : Py.getitem throughput 0 = Some waves)
    (Hbins : order_bins throughput wave_map = Some bins) :
  length bins = length waves /\
  forall n i j, (n < length waves)%nat ->
    (In (i, j) (nth n bins [])
     <-> exists v, entry wave_map i j = Some v /\
                   fst (bin_edges waves n (nth n waves 0)) <= v /\
                   v < snd (bin_edges waves n (nth n waves 0))).
Proof.
  apply order_bins_inv in Hbins as (waves' & Hw' & ->).
  rewrite Hwaves in Hw'. injection Hw' as <-.
  split; [now rewrite length_map, enumerate_length|].
  intros n i j Hn.
  set (f := fun nw : nat * Q => _).
  assert (Hnth : nth n (map f (enumerate waves)) [] = f (n, nth n waves 0)).
  { apply nth_error_nth. rewrite nth_error_map, nth_error_enumerate.
    rewrite (nth_error_nth' waves 0 Hn). reflexivity. }
  rewrite Hnth. subst f. cbn [fst snd]. rewrite where_between_spec.
  split.
  - intros (r & v & Hr & Hv & H0 & H1). exists v. split; [|auto].
    apply entry_spec. eauto.
  - intros (v & He & H0 & H1). apply entry_spec in He as (r & Hr & Hv).
    exists r, v. auto.
Qed.

Lemma bins_hold_pixels_in_interval_witness :
  length [[]; [(0, 1)]; [(0, 2)]]%nat = length [1; 2; 3] /\
  forall n i j, (n < length [1; 2; 3])%nat ->
    (In (i, j) (nth n [[]; [(0, 1)]; [(0, 2)]]%nat [])
     <-> exists v, entry (mkFrame 3 [[1; 2; 3]]) i j = Some v /\
                   fst (bin_edges [1; 2; 3] n (nth n [1; 2; 3] 0)) <= v /\
                   v < snd (bin_edges [1; 2; 3] n (nth n [1; 2; 3] 0))).
Proof.
  apply (bins_hold_pixels_in_interval [[1; 2; 3]; [1; 1; 1]] (mkFrame 3 [[1; 2; 3]])).
  - reflexivity.
  - reflexivity.
Defined.

Lemma where_between_empty (wave_map : Frame) (dw0 dw1 : Q) :
  dw1 <= dw0 -> where_between wave_map dw0 dw1 = [].
Proof.
  intros Hle. destruct (where_between wave_map dw0 dw1) as [|[i j] l] eqn:E;
    [reflexivity|].
  assert (Hin : In (i, j) (where_between wave_map dw0 dw1)) by (rewrite E; now left).
  apply where_between_spec in Hin as (r & v & _ & _ & H0 & H1). lra.
Qed.

(** X19.  When the table has at least two samples and the second is not
    above the last (as for wavelengths in ascending order), the bin of
    the first sample is empty for every wavelength map: its lower edge,
    taken from the last sample, is not below its upper edge. *)
Theorem first_bin_empty (throughput : list (list Q)) (wave_map : Frame)
    (waves : list Q)
    (Hwaves : Py.getitem throughput 0 = Some waves)
    (Hlen : (2 <= length waves)%nat)
    (Hasc : nth 1 waves 0 <= last waves 0) :
  exists rest, order_bins throughput wave_map = Some ([] :: rest).
Proof.
  unfold order_bins. rewrite Hwaves. cbn [Py.bind].
  destruct waves as [|w0 [|w1 l]]; simpl in Hlen; try lia.
  eexists. unfold enumerate. cbn [length seq combine map fst snd]. do 2 f_equal.
  apply where_between_empty.
  rewrite bin_edges_first by discriminate.
  rewrite bin_edges_upper by (simpl; lia).
  cbn [length Nat.ltb Nat.leb nth] in *. unfold Py.mean2.
  set (z := last _ _) in *. clearbody z.
  unfold Qdiv. apply Qmult_le_compat_r; [lra | discriminate].
Qed.

Lemma first_bin_empty_witness :
  exists rest,
    order_bins [[1; 2; 3]; [1; 1; 1]] (mkFrame 3 [[1; 2; 3]]) = Some ([] :: rest).
Proof.
  apply (first_bin_empty [[1; 2; 3]; [1; 1; 1]] (mkFrame 3 [[1; 2; 3]]) [1; 2; 3]).
  - reflexivity.
  - simpl. lia.
  - simpl. discriminate.
Defined.

Lemma mean2_comm (a b : Q) : Py.mean2 a b == Py.mean2 b a.
Proof. unfold Py.mean2. field. Qed.

(** X20.  Two consecutive samples share an edge: the upper edge of the
    bin of sample [n] is the lower edge of the bin of sample [n + 1], the
    midpoint of the two wavelengths.  Hence no pixel is in both bins. *)
Theorem consecutive_bins_share_edge (waves : list Q) (n : nat)
    (Hn : (S n < length waves)%nat) :
  let this := bin_edges waves n (nth n waves 0) in
  let next := bin_edges waves (S n) (nth (S n) waves 0) in
  snd this == (nth n waves 0 + nth (S n) waves 0) / 2 /\
  fst next == (nth n waves 0 + nth (S n) waves 0) / 2 /\
  forall wave_map p,
    ~ (In p (where_between wave_map (fst this) (snd this)) /\
       In p (where_between wave_map (fst next) (snd next))).
Proof.
  intros this next.
  assert (Hthis : snd this == Py.mean2 (nth n waves 0) (nth (S n) waves 0)).
  { subst this. rewrite bin_edges_upper by lia.
    destruct (Nat.ltb_spec (S n) (length waves)); [|lia]. apply mean2_comm. }
  assert (Hnext : fst next = Py.mean2 (nth n waves 0) (nth (S n) waves 0)).
  { subst next. now rewrite bin_edges_lower. }
  split; [exact Hthis|]. split; [now rewrite Hnext|].
  intros wave_map [i j] [H1 H2].
  apply where_between_spec in H1 as (r & v & Hr & Hv & _ & Hlt).
  apply where_between_spec in H2 as (r' & v' & Hr' & Hv' & Hle & _).
  rewrite Hr in Hr'. injection Hr' as <-.
  rewrite Hv in Hv'. injection Hv' as <-.
  rewrite Hnext in Hle. rewrite Hthis in Hlt.
  apply (Qlt_irrefl v). eapply Qlt_le_trans; eassumption.
Qed.

Lemma consecutive_bins_share_edge_witness :
  let this := bin_edges [1; 2; 3] 1 (nth 1 [1; 2; 3] 0) in
  let next := bin_edges [1; 2; 3] 2 (nth 2 [1; 2; 3] 0) in
  snd this == (nth 1 [1; 2; 3] 0 + nth 2 [1; 2; 3] 0) / 2 /\
  fst next == (nth 1 [1; 2; 3] 0 + nth 2 [1; 2; 3] 0) / 2 /\
  forall wave_map p,
    ~ (In p (where_between wave_map (fst this) (snd this)) /\
       In p (where_between wave_map (fst next) (snd next))).
Proof.
  apply (consecutive_bins_share_edge [1; 2; 3] 1). simpl. lia.
Defined.

(** X21.  The bins are indexed on the transposed wavelength map: for a
    rectangular map [a] read from the calibration file, the coordinate
    [(i, j)] is in a bin computed on [a.swapaxes(-2, -1)] exactly when
    the entry [a[j, i]] lies in [dw0, dw1). *)
Theorem bin_coordinates_transposed (a : Frame) (dw0 dw1 : Q) (i j : nat)
    (Hrect : rectangular a) :
  In (i, j) (where_between (swapaxes a) dw0 dw1)
  <-> exists v, entry a j i = Some v /\ dw0 <= v /\ v < dw1.
Proof.
  rewrite where_between_spec. unfold swapaxes. cbn [rows].
  unfold rectangular in Hrect. rewrite Forall_forall in Hrect.
  split.
  - intros (r & v & Hr & Hv & H0 & H1).
    rewrite nth_error_map, nth_error_seq in Hr.
    destruct (Nat.ltb_spec i (ncols a)) as [Hi|]; [|discriminate].
    simpl in Hr. injection Hr as <-.
    rewrite nth_error_map in Hv.
    destruct (nth_error (rows a) j) as [row|] eqn:Hrow; [|discriminate].
    simpl in Hv. injection Hv as <-.
    exists (nth i row 0). split; [|auto].
    apply entry_spec. exists row. split; [exact Hrow|].
    apply nth_error_nth'. rewrite (Hrect row); [exact Hi|].
    eapply nth_error_In; eassumption.
  - intros (v & He & H0 & H1). apply entry_spec in He as (row & Hrow & Hv).
    assert (Hi : (i < ncols a)%nat).
    { rewrite <- (Hrect row) by (eapply nth_error_In; eassumption).
      apply nth_error_Some. congruence. }
    exists (map (fun r => nth i r 0) (rows a)), v.
    split; [|split; [|auto]].
    + rewrite nth_error_map, nth_error_seq.
      destruct (Nat.ltb_spec i (ncols a)); [reflexivity | lia].
    + rewrite nth_error_map, Hrow. simpl. f_equal. now apply nth_error_nth.
Qed.

Lemma bin_coordinates_transposed_witness :
  In (2, 0)%nat (where_between (swapaxes (mkFrame 3 [[1; 2; 3]])) (5 # 2) (7 # 2))
  <-> exists v, entry (mkFrame 3 [[1; 2; 3]]) 0 2 = Some v /\ (5 # 2) <= v /\ v < (7 # 2).
Proof.
  apply (bin_coordinates_transposed (mkFrame 3 [[1; 2; 3]]) (5 # 2) (7 # 2) 2 0).
  unfold rectangular. simpl. repeat constructor.
Defined.

(** X22.  When there is no bin file and [save=False], the bins are
    recomputed by a self-call without arguments: a progress line is
    printed, the caller's subarray and wavelength calibration path are
    dropped (the packaged calibration file is read), and what the
    self-call returns or raises is what the caller gets. *)
Theorem bins_cache_miss_recomputes (fuel : nat) (w : World) (subarray : string)
    (wavecal_file : option string)
    (Hmiss : wavelength_bins_npy w = None) :
  wavelength_bins (S (S fuel)) w false subarray wavecal_file
  = wavelength_bins 1 (print w "No wavelength bin file. Generating one now...")
                    true "SUBSTRIP256" None.
Proof.
  cbn [wavelength_bins]. rewrite Hmiss. reflexivity.
Qed.

Lemma bins_cache_miss_recomputes_witness :
  wavelength_bins 2 calibrated_world false "SUBSTRIP96" (Some "missing.fits"%string)
  = wavelength_bins 1
      (print calibrated_world "No wavelength bin file. Generating one now...")
      true "SUBSTRIP256" None.
Proof.
  apply (bins_cache_miss_recomputes 0 calibrated_world "SUBSTRIP96"
           (Some "missing.fits"%string)).
  reflexivity.
Defined.
